(** * ExcelClient: load, format and validate one sheet of an Excel file

    A shallow embedding of [src/excel_client.py].  The class [ExcelClient]
    keeps a file path, the current dataframe and a logger; its methods are
    modelled as computations over that instance state which either return a
    value or raise an exception, the state reached so far being kept in both
    cases (Python assigns [self.dataframe] step by step).

    The pandas operations the class calls are modelled on a small dataframe
    type: a list of column labels and a list of rows, each row carrying its
    index label.  Cells are text, integers, booleans or the missing marker
    NaN; floating-point numbers other than NaN and dates are outside the
    model. *)

From Stdlib Require Import String Ascii List ZArith Bool Arith Lia DecimalString.
Import ListNotations.
Open Scope string_scope.

(** ** Exceptions *)

Module Exc.

(** The exception classes that occur; [OtherException] stands for any further
    subclass of [Exception] a library may raise (none of them a subclass of
    [FileNotFoundError]). *)
Inductive exc_type : Type :=
| FileNotFoundError
| ValueError
| KeyError
| OverflowError
| OtherException (name : string).

(** An exception object: its class, its message and its [__cause__], which
    [raise ... from e] sets to [e]. *)
#[local] Set Warnings "-register-all".
Inductive exn : Type :=
| Exn (etype : exc_type) (emsg : string) (cause : option exn).
#[local] Set Warnings "register-all".

Definition etype (e : exn) : exc_type := let 'Exn t _ _ := e in t.
Definition emsg (e : exn) : string := let 'Exn _ m _ := e in m.
Definition cause (e : exn) : option exn := let 'Exn _ _ c := e in c.

(** [isinstance(e, FileNotFoundError)], the test of the first [except]. *)
Definition is_FileNotFoundError (e : exn) : bool :=
  match etype e with FileNotFoundError => true | _ => false end.

Definition contains (c : ascii) (s : string) : bool :=
  existsb (Ascii.eqb c) (list_ascii_of_string s).

Definition double_quote : ascii := ascii_of_nat 34.

(** [repr(s)] of a text: between single quotes, or between double quotes
    when the text holds a single quote and no double quote (escape sequences
    are not modelled). *)
Definition repr (s : string) : string :=
  if contains "'" s && negb (contains double_quote s)
  then String double_quote (s ++ String double_quote EmptyString)
  else "'" ++ s ++ "'".

(** [str(e)], as [%s] and [{e}] insert it: the message, of which a
    [KeyError] shows the [repr]. *)
Definition str (e : exn) : string :=
  match etype e with
  | KeyError => repr (emsg e)
  | _ => emsg e
  end.

End Exc.
Import Exc.

(** ** Dataframes *)

(** A scalar held by a cell, or the missing marker. *)
Inductive cell : Type :=
| NaN
| Str (s : string)
| Int (z : Z)
| Bool (b : bool).

(** The dtypes a schema may declare. *)
Inductive dtype : Type :=
| dtype_str
| dtype_int
| dtype_bool.

Definition cell_eqb (a b : cell) : bool :=
  match a, b with
  | NaN, NaN => true
  | Str s, Str t => String.eqb s t
  | Int x, Int y => Z.eqb x y
  | Bool x, Bool y => Bool.eqb x y
  | _, _ => false
  end.

Definition isna (c : cell) : bool :=
  match c with NaN => true | _ => false end.

Definition notna (c : cell) : bool := negb (isna c).

(** A row with its index label. *)
Notation "'row'" := (nat * list cell)%type (only parsing).

Record DataFrame : Type := mkDataFrame {
  columns : list cell;
  rows : list row
}.

(** [pd.DataFrame()] *)
Definition empty_DataFrame : DataFrame := mkDataFrame [] [].

Definition index (df : DataFrame) : list nat := map fst (rows df).
Definition values (df : DataFrame) : list (list cell) := map snd (rows df).

Definition nl : string := String (ascii_of_nat 10) EmptyString.

Definition string_of_nat (n : nat) : string :=
  NilZero.string_of_uint (Nat.to_uint n).

Definition string_of_Z (z : Z) : string :=
  NilZero.string_of_int (Z.to_int z).

Fixpoint join (sep : string) (l : list string) : string :=
  match l with
  | [] => ""
  | [s] => s
  | s :: t => s ++ sep ++ join sep t
  end.

Definition quoted (s : string) : string := "'" ++ s ++ "'".

(** Position of the first column labelled [c]. *)
Fixpoint get_loc (c : cell) (cols : list cell) : option nat :=
  match cols with
  | [] => None
  | x :: t => if cell_eqb x c then Some 0 else option_map S (get_loc c t)
  end.

(** The cell of a row at a position; a row shorter than the header reads as
    padded with empty cells. *)
Definition cell_at (r : list cell) (p : nat) : cell := nth p r NaN.

Definition seq_index {A} (l : list A) : list nat := seq 0 (length l).

(** The value of a row under a column label, [row[k]]. *)
Definition row_value (cols : list cell) (r : list cell) (k : string) : cell :=
  match get_loc (Str k) cols with
  | Some p => cell_at r p
  | None => NaN
  end.

Definition has_column (cols : list cell) (k : string) : bool :=
  match get_loc (Str k) cols with Some _ => true | None => false end.

(** [df.loc[:, keys]]: the columns named by [keys], in the order of [keys];
    a [KeyError] when some key labels no column.  Frames are taken to have
    pairwise distinct labels, as the reader delivers them; on a repeated
    label the first column is taken here, where pandas keeps them all. *)
Definition loc_columns (df : DataFrame) (keys : list string)
  : exn + DataFrame :=
  match filter (fun k => negb (has_column (columns df) k)) keys with
  | [] =>
      inr (mkDataFrame (map Str keys)
             (map (fun r : row =>
                     (fst r, map (row_value (columns df) (snd r)) keys))
                  (rows df)))
  | absent =>
      let listed := "[" ++ join ", " (map repr absent) ++ "]" in
      inl (Exn KeyError
             (if Nat.eqb (length absent) (length keys)
              then "None of [Index(" ++ listed
                   ++ ", dtype='object')] are in the [columns]"
              else listed ++ " not in index")
             None)
  end.

(** A column as a series: index labels and values. *)
Definition Series : Type := list (nat * cell).

(** [df[name]], on a frame whose labels are pairwise distinct; for an absent
    label the index lookup fails and [KeyError(name)] is raised from it. *)
Definition getitem (df : DataFrame) (name : string) : exn + Series :=
  if has_column (columns df) name
  then inr (map (fun r : row => (fst r, row_value (columns df) (snd r) name))
                (rows df))
  else inl (Exn KeyError name (Some (Exn KeyError name None))).

(** [series.notna()] *)
Definition Series_notna (s : Series) : list bool :=
  map (fun ic => notna (snd ic)) s.

(** Selection of the rows a boolean mask marks: [df[mask]], [df.loc[mask]]. *)
Fixpoint select {A} (l : list A) (mask : list bool) : list A :=
  match l, mask with
  | x :: l', b :: mask' =>
      if b then x :: select l' mask' else select l' mask'
  | _, _ => []
  end.

Definition getitem_mask (df : DataFrame) (mask : list bool) : DataFrame :=
  mkDataFrame (columns df) (select (rows df) mask).

(** [df.reset_index(drop=True)] *)
Definition reset_index_drop (df : DataFrame) : DataFrame :=
  mkDataFrame (columns df) (combine (seq_index (rows df)) (values df)).

(** [df.isna().any(axis=1)]: per row, whether some cell is missing. *)
Definition isna_any_axis1 (df : DataFrame) : list bool :=
  map (fun r : row => existsb isna (snd r)) (rows df).

(** [mask.any()] *)
Definition any (mask : list bool) : bool := existsb (fun b => b) mask.

(** [df.loc[mask]] keeps the index labels of the rows it selects. *)
Definition loc_rows (df : DataFrame) (mask : list bool) : DataFrame :=
  getitem_mask df mask.

(** *** Conversion of values, [astype] *)

Definition int64_min : Z := - 2 ^ 63.
Definition int64_max : Z := 2 ^ 63 - 1.

Definition in_int64 (z : Z) : bool :=
  Z.leb int64_min z && Z.leb z int64_max.

(** The blanks [int] skips around a literal. *)
Definition is_space (c : ascii) : bool :=
  let n := nat_of_ascii c in
  (Nat.leb 9 n && Nat.leb n 13) || (Nat.leb 28 n && Nat.leb n 32).

Definition digit_of (c : ascii) : option Z :=
  let n := nat_of_ascii c in
  if Nat.leb 48 n && Nat.leb n 57 then Some (Z.of_nat (n - 48)) else None.

Fixpoint lstrip (s : string) : string :=
  match s with
  | String c s' => if is_space c then lstrip s' else s
  | EmptyString => s
  end.

(** Decimal digits, single underscores allowed between two digits, up to
    trailing blanks. *)
Fixpoint int_digits (s : string) (acc : Z) (after_digit : bool) : option Z :=
  match s with
  | EmptyString => if after_digit then Some acc else None
  | String c s' =>
      match digit_of c with
      | Some d => int_digits s' (10 * acc + d) true
      | None =>
          if Ascii.eqb c "_"
          then if after_digit then int_digits s' acc false else None
          else if after_digit
               then match lstrip s with
                    | EmptyString => Some acc
                    | _ => None
                    end
               else None
      end
  end.

(** [int(s)] on text: blanks, an optional sign, decimal digits, blanks
    (ASCII only). *)
Definition int_of_text (s : string) : option Z :=
  match lstrip s with
  | String "+" s' => int_digits s' 0 false
  | String "-" s' => option_map Z.opp (int_digits s' 0 false)
  | s' => int_digits s' 0 false
  end.

(** The conversion of one value to a dtype, for the dtypes and values of the
    model (no floating-point or date values; the wording of the messages is
    that of one pandas version). *)
Definition astype_cell (d : dtype) (c : cell) : exn + cell :=
  match d with
  | dtype_str =>
      inr (Str match c with
               | NaN => "nan"
               | Str s => s
               | Int z => string_of_Z z
               | Bool true => "True"
               | Bool false => "False"
               end)
  | dtype_int =>
      match c with
      | NaN => inl (Exn ValueError "cannot convert float NaN to integer" None)
      | Str s =>
          match int_of_text s with
          | Some z =>
              if in_int64 z then inr (Int z)
              else inl (Exn OverflowError
                          "Python int too large to convert to C long" None)
          | None =>
              inl (Exn ValueError
                     ("invalid literal for int() with base 10: " ++ repr s)
                     None)
          end
      | Int z =>
          if in_int64 z then inr (Int z)
          else inl (Exn OverflowError
                      "Python int too large to convert to C long" None)
      | Bool b => inr (Int (if b then 1 else 0))
      end
  | dtype_bool =>
      inr (Bool match c with
                | NaN => true
                | Str s => negb (String.eqb s "")
                | Int z => negb (Z.eqb z 0)
                | Bool b => b
                end)
  end.

(** The dtype a mapping declares for a column label. *)
Fixpoint dtype_of (schema : list (string * dtype)) (c : cell) : option dtype :=
  match schema with
  | [] => None
  | (k, d) :: t => if cell_eqb (Str k) c then Some d else dtype_of t c
  end.

(** [series.astype(d)]: the values converted in row order; the first failure
    is raised. *)
Fixpoint astype_column (d : dtype) (col : list cell) : exn + list cell :=
  match col with
  | [] => inr []
  | x :: col' =>
      match astype_cell d x with
      | inl e => inl e
      | inr y =>
          match astype_column d col' with
          | inl e => inl e
          | inr ys => inr (y :: ys)
          end
      end
  end.

(** The column at position [j] of a list of rows. *)
Definition column_at (rs : list row) (j : nat) : list cell :=
  map (fun r : row => cell_at (snd r) j) rs.

(** The columns of a frame converted one after the other, in the order of the
    frame's columns, [j] being the position of the first of [cols]; a column
    the mapping does not name is kept. *)
Fixpoint astype_columns (schema : list (string * dtype)) (cols : list cell)
  (j : nat) (rs : list row) : exn + list (list cell) :=
  match cols with
  | [] => inr []
  | c :: cols' =>
      match (match dtype_of schema c with
             | Some d => astype_column d (column_at rs j)
             | None => inr (column_at rs j)
             end) with
      | inl e => inl e
      | inr col =>
          match astype_columns schema cols' (S j) rs with
          | inl e => inl e
          | inr t => inr (col :: t)
          end
      end
  end.

(** The rows of a frame given by its columns. *)
Definition rows_of_columns (idx : list nat) (cols : list (list cell))
  : list row :=
  combine idx
    (map (fun i => map (fun col => nth i col NaN) cols) (seq_index idx)).

(** [df.astype(schema)] with a mapping from column name to dtype: every key
    has to label a column; the columns it names are converted, the others are
    kept.  (Later pandas versions append the name of the key to the text of
    the [KeyError].) *)
Definition astype (df : DataFrame) (schema : list (string * dtype))
  : exn + DataFrame :=
  if forallb (fun kd => has_column (columns df) (fst kd)) schema
  then match astype_columns schema (columns df) 0 (rows df) with
       | inl e => inl e
       | inr cs => inr (mkDataFrame (columns df)
                          (rows_of_columns (index df) cs))
       end
  else inl (Exn KeyError
              "Only a column name can be used for the key in a dtype mappings argument."
              None).

(** The runtime type of a value against a dtype. *)
Definition has_dtype (d : dtype) (c : cell) : bool :=
  match d, c with
  | dtype_str, Str _ => true
  | dtype_int, Int z => in_int64 z
  | dtype_bool, Bool _ => true
  | _, _ => false
  end.

(** ** The file system and [pd.read_excel] *)

(** What a path leads to: no file, [e] being the exception opening it raises
    (a [FileNotFoundError] as a rule, but a [NotADirectoryError] when a
    component of the path is a file, an [OSError] for a name too long, a
    [ValueError] for a null byte); something that cannot be read as a
    workbook (the exception the reader raises on it is recorded); or a
    workbook, a list of named sheets.  A sheet is the grid of its cells, an
    empty cell being NaN. *)
Inductive file : Type :=
| Missing (e : exn)
| Unreadable (e : exn)
| Workbook (sheets : list (string * list (list cell))).

Fixpoint get_sheet (name : string) (sheets : list (string * list (list cell)))
  : option (list (list cell)) :=
  match sheets with
  | [] => None
  | (n, g) :: t => if String.eqb n name then Some g else get_sheet name t
  end.

(** The texts the reader takes for a missing value (its default
    [na_values]). *)
Definition na_values : list string :=
  [""; "#N/A"; "#N/A N/A"; "#NA"; "-1.#IND"; "-1.#QNAN"; "-NaN"; "-nan";
   "1.#IND"; "1.#QNAN"; "<NA>"; "N/A"; "NA"; "NULL"; "NaN"; "None"; "n/a";
   "nan"; "null"].

(** A data cell as the reader delivers it: an empty cell and a text of
    [na_values] are NaN.  (Text that spells a number is left as text; the
    reader's conversion of all-numeric text columns is not modelled.) *)
Definition read_cell (c : cell) : cell :=
  match c with
  | Str s => if existsb (String.eqb s) na_values then NaN else c
  | _ => c
  end.

(** The labels a header row gives: a cell's value, and [Unnamed: i] for an
    empty cell at position [i].  (pandas also renames a repeated name to
    [name.1], [name.2], ...; the labels are kept as read here, and a lookup
    by name takes the first column of that name.) *)
Fixpoint header_labels (i : nat) (hd : list cell) : list cell :=
  match hd with
  | [] => []
  | c :: t =>
      match c with
      | NaN | Str "" => Str ("Unnamed: " ++ string_of_nat i)
      | _ => c
      end :: header_labels (S i) t
  end.

Definition width (grid : list (list cell)) : nat :=
  fold_right (fun r w => Nat.max (length r) w) 0 grid.

(** The frame of a grid: with [header = Some n] row [n] gives the labels and
    the rows after it the data; with [header = None] the labels are the
    positions 0, 1, ... and every row is data.  Rows are indexed from 0.
    (Cells keep the values of the grid: the dtype pandas infers per column,
    which turns an integer column with an empty cell into floats, and the
    dropping of trailing empty rows are not modelled.) *)
Definition parse_grid (grid : list (list cell)) (header : option nat)
  : DataFrame :=
  match header with
  | Some n =>
      match skipn n grid with
      | [] => empty_DataFrame
      | hd :: body =>
          mkDataFrame (header_labels 0 hd)
            (combine (seq_index body) (map (map read_cell) body))
      end
  | None =>
      mkDataFrame (map (fun i => Int (Z.of_nat i)) (seq 0 (width grid)))
                  (combine (seq_index grid) (map (map read_cell) grid))
  end.

(** The rows pandas shows of a frame it writes out with [repr]: all of them
    up to [display.max_rows], 60; beyond that [display.min_rows], 10, the
    first five and the last five. *)
Definition display_max_rows : nat := 60.
Definition display_min_rows : nat := 10.

Definition displayed (df : DataFrame) : DataFrame :=
  if Nat.ltb display_max_rows (length (rows df))
  then mkDataFrame (columns df)
         (firstn (display_min_rows / 2) (rows df)
          ++ skipn (length (rows df) - display_min_rows / 2) (rows df))
  else df.

(** The default of [read_excel]'s [header] parameter, [header=0]. *)
Definition read_excel_header_default : option nat := Some 0.

(** A simple rendering of a frame, one line per row with its index label
    first; it stands in for pandas' own layout where a concrete text is
    needed. *)
Definition show_cell (c : cell) : string :=
  match c with
  | NaN => "NaN"
  | Str s => s
  | Int z => string_of_Z z
  | Bool true => "True"
  | Bool false => "False"
  end.

Definition show_frame (df : DataFrame) : string :=
  join nl (join " " (map show_cell (columns df))
           :: map (fun r : row =>
                     join " " (string_of_nat (fst r) :: map show_cell (snd r)))
                  (rows df)).

(** ** The instance state and the computations over it *)

Inductive level : Type := DEBUG | INFO | ERROR.

(** An [ExcelClient] object; [logger] holds the records emitted so far, the
    latest last. *)
Record ExcelClient : Type := mkExcelClient {
  file_path : string;
  dataframe : DataFrame;
  logger : list (level * string)
}.

(** A method body: from the instance to an outcome, an exception raised or a
    value returned, and the instance as the body left it. *)
Definition M (A : Type) : Type := ExcelClient -> (exn + A) * ExcelClient.

Definition ret {A} (a : A) : M A := fun self => (inr a, self).

Definition bind {A B} (m : M A) (k : A -> M B) : M B :=
  fun self =>
    match m self with
    | (inr a, self') => k a self'
    | (inl e, self') => (inl e, self')
    end.

Definition raise {A} (e : exn) : M A := fun self => (inl e, self).

(** [try: body / except Exception as e: handler e] *)
Definition try_except {A} (body : M A) (handler : exn -> M A) : M A :=
  fun self =>
    match body self with
    | (inl e, self') => handler e self'
    | r => r
    end.

(** The outcome of a library call that leaves the instance alone. *)
Definition eval {A} (r : exn + A) : M A := fun self => (r, self).

Definition get_file_path : M string := fun self => (inr (file_path self), self).

Definition get_dataframe : M DataFrame :=
  fun self => (inr (dataframe self), self).

Definition set_dataframe (df : DataFrame) : M unit :=
  fun self => (inr tt, mkExcelClient (file_path self) df (logger self)).

Definition log (l : level) (msg : string) : M unit :=
  fun self =>
    (inr tt,
     mkExcelClient (file_path self) (dataframe self) (logger self ++ [(l, msg)])).

Declare Scope method_scope.
Delimit Scope method_scope with method.
Notation "x <- m ;; k" := (bind m (fun x => k))
  (at level 61, m at next level, right associativity) : method_scope.
Notation "m ;; k" := (bind m (fun _ => k))
  (at level 61, right associativity) : method_scope.
Open Scope method_scope.

(** [ExcelClient(file_path)] *)
Definition __init__ (file_path : string) : ExcelClient :=
  mkExcelClient file_path empty_DataFrame [].

(** ** A small file system for the examples *)

Module Example.

Definition FEATURES : list (string * dtype) :=
  [("Name", dtype_str); ("Qty", dtype_int)].

Definition sheets : list (string * list (list cell)) :=
  [("Sheet1", [[Str "Name"; Str "Qty"];
               [Str "A"; Int 5];
               [Str ""; Int 2];
               [Str "B"; Str "x"]]);
   ("Good", [[Str "Name"; Str "Extra"; Str "Qty"];
             [Str "A"; NaN; Int 5];
             [NaN; NaN; Int 2];
             [Str "B"; Bool true; Str "7"]]);
   ("Full", [[Str "Name"; Str "Qty"];
             [Str "A"; Int 5];
             [Str "B"; Str "7"]]);
   ("Mixed", [[Str "Name"; Str "Qty"];
              [Str "A"; NaN];
              [Str "B"; Str "x"]]);
   ("Gap", [[Str "Name"; Str "Qty"];
            [Str "A"; Int 5];
            [Str "B"; NaN]]);
   ("Prices", [[Str "Name"; Str "Price"];
               [Str "A"; Int 3]])].

Definition fs (path : string) : file :=
  if String.eqb path "data.xlsx" then Workbook sheets
  else if String.eqb path "broken.xlsx"
       then Unreadable (Exn (OtherException "BadZipFile")
                            "File is not a zip file" None)
       else if String.eqb path "data.xlsx/book.xlsx"
            then Missing (Exn (OtherException "NotADirectoryError")
                              "[Errno 20] Not a directory: 'data.xlsx/book.xlsx'"
                              None)
            else Missing (Exn FileNotFoundError
                              ("[Errno 2] No such file or directory: "
                               ++ repr path) None).

(** The instance the examples load with. *)
Definition client : ExcelClient := __init__ "data.xlsx".

(** A frame with text labels and index labels 0, 1, 2, ... *)
Definition frame (cols : list string) (vals : list (list cell)) : DataFrame :=
  mkDataFrame (map Str cols) (combine (seq_index vals) vals).

Definition Sheet1 : DataFrame :=
  frame ["Name"; "Qty"]
        [[Str "A"; Int 5]; [NaN; Int 2]; [Str "B"; Str "x"]].

Definition Sheet1_filtered : DataFrame :=
  frame ["Name"; "Qty"] [[Str "A"; Int 5]; [Str "B"; Str "x"]].

Definition Good : DataFrame :=
  frame ["Name"; "Extra"; "Qty"]
        [[Str "A"; NaN; Int 5]; [NaN; NaN; Int 2];
         [Str "B"; Bool true; Str "7"]].

Definition Good_projected : DataFrame :=
  frame ["Name"; "Qty"]
        [[Str "A"; Int 5]; [NaN; Int 2]; [Str "B"; Str "7"]].

Definition Full : DataFrame :=
  frame ["Name"; "Qty"] [[Str "A"; Int 5]; [Str "B"; Str "7"]].

Definition Full_converted : DataFrame :=
  frame ["Name"; "Qty"] [[Str "A"; Int 5]; [Str "B"; Int 7]].

Definition Mixed : DataFrame :=
  frame ["Name"; "Qty"] [[Str "A"; NaN]; [Str "B"; Str "x"]].

Definition Mixed_offending : DataFrame :=
  frame ["Name"; "Qty"] [[Str "A"; NaN]].

Definition Prices : DataFrame :=
  frame ["Name"; "Price"] [[Str "A"; Int 3]].

End Example.

(** Further example data: a workbook whose only sheet has no row with a
    [Name], the table read from it, and the table of the sheet [Good] with
    its columns in another order and without the column the schema does not
    name. *)
Module MoreExamples.

Definition blank_fs (path : string) : file :=
  Workbook [("Blank", [[Str "Name"; Str "Qty"];
                       [NaN; Str "x"];
                       [Str ""; NaN]])].

Definition Blank : DataFrame :=
  Example.frame ["Name"; "Qty"] [[NaN; Str "x"]; [NaN; NaN]].

Definition Good_swapped : DataFrame :=
  Example.frame ["Qty"; "Name"]
                [[Int 5; Str "A"]; [Int 2; NaN]; [Str "7"; Str "B"]].



Definition loaded_Full : ExcelClient :=
  mkExcelClient "data.xlsx" Example.Full_converted
    [(INFO, "Reading in Excel file");
     (INFO, "Formatting and validating data");
     (DEBUG, "Dataset loaded, no apparent missing values.")].

End MoreExamples.

Section Client.

(** The file system the client reads from. *)
Variable fs : string -> file.

(** The schema constant [excel_client.constants.FEATURES], a mapping from
    column name to dtype in declaration order.  The module that defines it is
    not part of the sources at hand; the development is parametric in it. *)
Variable FEATURES : list (string * dtype).

(** The layout pandas gives the rows of a frame it writes out in full,
    [DataFrame.to_string]; the development is parametric in it. *)
Variable to_string : DataFrame -> string.

Definition FEATURES_keys : list string := map fst FEATURES.

(** [pd.read_excel(io, sheet_name=..., header=...)] *)
Definition read_excel (io sheet_name : string) (header : option nat)
  : exn + DataFrame :=
  match fs io with
  | Missing e => inl e
  | Unreadable e => inl e
  | Workbook sheets =>
      match get_sheet sheet_name sheets with
      | None =>
          inl (Exn ValueError
                 ("Worksheet named " ++ quoted sheet_name ++ " not found")
                 None)
      | Some grid => inr (parse_grid grid header)
      end
  end.

(** The messages of the exceptions the class raises. *)
Definition not_found_msg (path : string) : string :=
  "File '" ++ path ++ "' not found.".

Definition readout_msg (e : exn) : string :=
  "Exception raised during file readout: " ++ str e.

(** [repr(df)], which the f-string of the missing-value message inserts: the
    layout of the frame when it has at most 60 rows, and otherwise the layout
    of the rows displayed (the row of dots between them is left to the
    layout) followed by the dimensions of the frame. *)
Definition DataFrame_repr (df : DataFrame) : string :=
  if Nat.ltb display_max_rows (length (rows df))
  then to_string (displayed df) ++ nl ++ nl
       ++ "[" ++ string_of_nat (length (rows df)) ++ " rows x "
       ++ string_of_nat (length (columns df)) ++ " columns]"
  else to_string df.

Definition missing_msg (offending : DataFrame) : string :=
  "Missing values found in the input dataset: "
  ++ "                    " ++ nl ++ DataFrame_repr offending ++ nl.

Definition conversion_msg (e : exn) : string :=
  "Exception raised during datatype conversion: " ++ str e.

Definition _to_df (sheet_name : string) (header : bool) : M unit :=
  try_except
    (path <- get_file_path ;;
     if header then
       df <- eval (read_excel path sheet_name (Some 0)) ;;
       set_dataframe df
     else
       df <- eval (read_excel path sheet_name read_excel_header_default) ;;
       set_dataframe df)
    (fun e =>
       path <- get_file_path ;;
       if is_FileNotFoundError e then
         log ERROR (not_found_msg path) ;;
         raise (Exn FileNotFoundError (not_found_msg path) (Some e))
       else
         log ERROR (readout_msg e) ;;
         raise (Exn ValueError (readout_msg e) (Some e))).

Definition _validate_data : M unit :=
  df <- get_dataframe ;;
  let missing_values := isna_any_axis1 df in
  (if any missing_values then
     raise (Exn ValueError (missing_msg (loc_rows df missing_values)) None)
   else
     log DEBUG "Dataset loaded, no apparent missing values.") ;;
  try_except
    (df <- get_dataframe ;;
     df' <- eval (astype df FEATURES) ;;
     set_dataframe df')
    (fun e =>
       log ERROR (conversion_msg e) ;;
       raise (Exn ValueError (conversion_msg e) (Some e))).

Definition _format_df (validate : bool) : M unit :=
  df <- get_dataframe ;;
  df' <- eval (loc_columns df FEATURES_keys) ;;
  set_dataframe df' ;;
  df <- get_dataframe ;;
  name <- eval (getitem df "Name") ;;
  set_dataframe (reset_index_drop (getitem_mask df (Series_notna name))) ;;
  if validate then _validate_data else ret tt.

Definition load_excel (sheet_name : string) (header return_output : bool)
  : M (option DataFrame) :=
  log INFO "Reading in Excel file" ;;
  _to_df sheet_name header ;;
  log INFO "Formatting and validating data" ;;
  _format_df true ;;
  df <- get_dataframe ;;
  let returned_object := if return_output then Some df else None in
  ret returned_object.



(** The kinds of failure of the loader, as the class raises them. *)
Definition NotFoundError (path : string) (e : exn) : exn :=
  Exn FileNotFoundError (not_found_msg path) (Some e).

Definition ParseError (e : exn) : exn :=
  Exn ValueError (readout_msg e) (Some e).

Definition ValidationError (offending : DataFrame) : exn :=
  Exn ValueError (missing_msg offending) None.

Definition CoercionError (e : exn) : exn :=
  Exn ValueError (conversion_msg e) (Some e).

(** An exception one of the [raise] statements of the class constructs. *)
Definition raised_by_class (e : exn) : Prop :=
  (exists path c, e = NotFoundError path c)
  \/ (exists c, e = ParseError c)
  \/ (exists offending, e = ValidationError offending)
  \/ (exists c, e = CoercionError c).


(** The table the filter step leaves from a projected table and its [Name]
    column. *)
Definition filtered (proj : DataFrame) (name : Series) : DataFrame :=
  reset_index_drop (getitem_mask proj (Series_notna name)).

Definition with_dataframe (self : ExcelClient) (df : DataFrame)
  (records : list (level * string)) : ExcelClient :=
  mkExcelClient (file_path self) df (logger self ++ records).

Definition reading : level * string := (INFO, "Reading in Excel file").
Definition formatting : level * string :=
  (INFO, "Formatting and validating data").
Definition no_missing : level * string :=
  (DEBUG, "Dataset loaded, no apparent missing values.").

(** ** Properties *)

(** Unfolding of the monadic operations, and reduction of the field
    accesses they leave. *)
Ltac unfold_ops :=
  unfold bind, try_except, eval, get_file_path, get_dataframe, set_dataframe,
    log, raise, ret.

Ltac fields := cbn [file_path dataframe logger fst snd].

Lemma _to_df_header_irrelevant (sheet_name : string) (self : ExcelClient) :
  _to_df sheet_name false self = _to_df sheet_name true self.
Proof. reflexivity. Qed.

Lemma app_assoc2 {A} (l : list A) (a b : A) :
  ((l ++ [a]) ++ [b] = l ++ [a; b])%list.
Proof. now rewrite <- app_assoc. Qed.

Lemma app_assoc3 {A} (l : list A) (a b c : A) :
  (((l ++ [a]) ++ [b]) ++ [c] = l ++ [a; b; c])%list.
Proof. now rewrite <- !app_assoc. Qed.

Lemma app_assoc4 {A} (l : list A) (a b c d : A) :
  ((((l ++ [a]) ++ [b]) ++ [c]) ++ [d] = l ++ [a; b; c; d])%list.
Proof. now rewrite <- !app_assoc. Qed.

(** What [load_excel] does once the sheet was read. *)
Lemma load_excel_read (sheet_name : string) (header return_output : bool)
  (self : ExcelClient) (raw : DataFrame) :
  read_excel (file_path self) sheet_name (Some 0) = inr raw ->
  load_excel sheet_name header return_output self =
  match loc_columns raw FEATURES_keys with
  | inl e => (inl e, with_dataframe self raw [reading; formatting])
  | inr proj =>
      match getitem proj "Name" with
      | inl e => (inl e, with_dataframe self proj [reading; formatting])
      | inr name =>
          let filt := filtered proj name in
          if any (isna_any_axis1 filt)
          then (inl (ValidationError (loc_rows filt (isna_any_axis1 filt))),
                with_dataframe self filt [reading; formatting])
          else
            match astype filt FEATURES with
            | inl e =>
                (inl (CoercionError e),
                 with_dataframe self filt
                   [reading; formatting; no_missing;
                    (ERROR, conversion_msg e)])
            | inr out =>
                (inr (if return_output then Some out else None),
                 with_dataframe self out [reading; formatting; no_missing])
            end
      end
  end.
Proof.
  intros Hread.
  assert (Hh : load_excel sheet_name header return_output self
               = load_excel sheet_name true return_output self)
    by (destruct header; reflexivity).
  rewrite Hh; clear Hh.
  unfold load_excel, _to_df, _format_df, _validate_data, with_dataframe.
  unfold_ops.
  fields.
  rewrite Hread.
  fields.
  rewrite !app_assoc2.
  destruct (loc_columns raw FEATURES_keys) as [e|proj]; [reflexivity|].
  fields.
  destruct (getitem proj "Name") as [e|name]; [reflexivity|].
  fields.
  fold (filtered proj name).
  destruct (any (isna_any_axis1 (filtered proj name))); [reflexivity|].
  fields.
  destruct (astype (filtered proj name) FEATURES) as [e|out].
  - fields.
    now rewrite <- !app_assoc.
  - fields.
    now rewrite <- !app_assoc.
Qed.

(** What [load_excel] does when the sheet cannot be read. *)
Lemma load_excel_unread (sheet_name : string) (header return_output : bool)
  (self : ExcelClient) (e : exn) :
  read_excel (file_path self) sheet_name (Some 0) = inl e ->
  load_excel sheet_name header return_output self =
  if is_FileNotFoundError e
  then (inl (NotFoundError (file_path self) e),
        with_dataframe self (dataframe self)
          [reading; (ERROR, not_found_msg (file_path self))])
  else (inl (ParseError e),
        with_dataframe self (dataframe self)
          [reading; (ERROR, readout_msg e)]).
Proof.
  intros Hread.
  assert (Hh : load_excel sheet_name header return_output self
               = load_excel sheet_name true return_output self)
    by (destruct header; reflexivity).
  rewrite Hh; clear Hh.
  unfold load_excel, _to_df, with_dataframe.
  unfold_ops.
  fields.
  rewrite Hread.
  fields.
  destruct (is_FileNotFoundError e);
    fields; now rewrite app_assoc2.
Qed.

Lemma cell_eqb_eq (a b : cell) : cell_eqb a b = true <-> a = b.
Proof.
  destruct a, b; cbn; split; intros H; try discriminate; try reflexivity.
  - apply String.eqb_eq in H. now subst.
  - injection H as ->. apply String.eqb_refl.
  - apply Z.eqb_eq in H. now subst.
  - injection H as ->. apply Z.eqb_refl.
  - apply Bool.eqb_prop in H. now subst.
  - injection H as ->. apply Bool.eqb_reflx.
Qed.

Lemma get_loc_None (c : cell) (cols : list cell) :
  get_loc c cols = None <-> ~ In c cols.
Proof.
  induction cols as [|x t IH]; cbn.
  - intuition.
  - destruct (cell_eqb x c) eqn:E.
    + apply cell_eqb_eq in E. intuition discriminate.
    + assert (x <> c) as Hx.
      { intros ->. rewrite (proj2 (cell_eqb_eq c c) eq_refl) in E.
        discriminate. }
      destruct (get_loc c t) as [n|]; cbn.
      * split; [discriminate|]. intros Hn.
        assert (Some n = None) by (apply IH; intuition). discriminate.
      * intuition.
Qed.

Lemma get_loc_Some (c : cell) (cols : list cell) (p : nat) :
  get_loc c cols = Some p -> nth_error cols p = Some c.
Proof.
  revert p. induction cols as [|x t IH]; cbn; intros p H; [discriminate|].
  destruct (cell_eqb x c) eqn:E.
  - apply cell_eqb_eq in E. injection H as <-. now subst.
  - destruct (get_loc c t) as [n|]; cbn in H; [|discriminate].
    injection H as <-. cbn. now apply IH.
Qed.

Lemma has_column_In (cols : list cell) (k : string) :
  has_column cols k = true <-> In (Str k) cols.
Proof.
  unfold has_column. destruct (get_loc (Str k) cols) as [p|] eqn:E.
  - split; [intros _|reflexivity].
    apply get_loc_Some in E. eapply nth_error_In; eauto.
  - split; [discriminate|]. intros H. apply get_loc_None in E. contradiction.
Qed.

Lemma has_column_false (cols : list cell) (k : string) :
  has_column cols k = false <-> ~ In (Str k) cols.
Proof.
  rewrite <- has_column_In. destruct (has_column cols k); intuition congruence.
Qed.

(** The position of a name among the labels of a projected frame. *)
Lemma get_loc_Str (keys : list string) (k : string) :
  In k keys ->
  exists p, get_loc (Str k) (map Str keys) = Some p
            /\ nth_error keys p = Some k.
Proof.
  induction keys as [|x t IH]; cbn; [intros []|]. intros H.
  destruct (String.eqb x k) eqn:E.
  - apply String.eqb_eq in E. subst. now exists 0.
  - destruct H as [->|H]; [rewrite String.eqb_refl in E; discriminate|].
    destruct (IH H) as (p & Hp & Hn). exists (S p). rewrite Hp. now cbn.
Qed.

Lemma cell_at_map {A} (g : A -> cell) (l : list A) (p : nat) (a : A) :
  nth_error l p = Some a -> cell_at (map g l) p = g a.
Proof.
  unfold cell_at. revert p. induction l as [|x t IH]; intros [|p]; cbn;
    try discriminate.
  - now intros [= ->].
  - apply IH.
Qed.

(** The value a projected row holds under a name is the value the row it
    comes from held. *)
Lemma row_value_projected (keys : list string) (g : string -> cell)
  (k : string) :
  In k keys -> row_value (map Str keys) (map g keys) k = g k.
Proof.
  intros H. destruct (get_loc_Str keys k H) as (p & Hp & Hn).
  unfold row_value. rewrite Hp. now apply cell_at_map.
Qed.

Lemma loc_columns_present (df : DataFrame) (keys : list string) :
  (forall k, In k keys -> In (Str k) (columns df)) ->
  loc_columns df keys =
  inr (mkDataFrame (map Str keys)
         (map (fun r : row =>
                 (fst r, map (row_value (columns df) (snd r)) keys))
              (rows df))).
Proof.
  intros H. unfold loc_columns.
  replace (filter (fun k => negb (has_column (columns df) k)) keys)
    with (@nil string); [reflexivity|].
  symmetry. induction keys as [|k t IH]; [reflexivity|]. cbn.
  rewrite (proj2 (has_column_In (columns df) k)) by (apply H; now left).
  cbn. apply IH. intros k' Hk'. apply H. now right.
Qed.

Lemma loc_columns_absent (df : DataFrame) (keys : list string) (k : string) :
  In k keys -> ~ In (Str k) (columns df) ->
  exists msg, loc_columns df keys = inl (Exn KeyError msg None).
Proof.
  intros Hk Hn. unfold loc_columns.
  destruct (filter (fun k => negb (has_column (columns df) k)) keys)
    as [|a l] eqn:E.
  - assert (In k []) as [].
    rewrite <- E. apply filter_In. split; [assumption|].
    now rewrite (proj2 (has_column_false _ _) Hn).
  - eexists. reflexivity.
Qed.

(** A projection that succeeded found every key and has the form
    [loc_columns_present] gives. *)
Lemma loc_columns_inr (df proj : DataFrame) (keys : list string) :
  loc_columns df keys = inr proj ->
  (forall k, In k keys -> In (Str k) (columns df))
  /\ proj = mkDataFrame (map Str keys)
              (map (fun r : row =>
                      (fst r, map (row_value (columns df) (snd r)) keys))
                   (rows df)).
Proof.
  intros H.
  assert (forall k, In k keys -> In (Str k) (columns df)) as Hall.
  { intros k Hk. apply has_column_In.
    destruct (has_column (columns df) k) eqn:E; [reflexivity|].
    apply has_column_false in E.
    destruct (loc_columns_absent df keys k Hk E) as (msg & Hm).
    congruence. }
  split; [assumption|]. rewrite (loc_columns_present _ _ Hall) in H.
  congruence.
Qed.

Lemma select_map {A} (f : A -> bool) (l : list A) :
  select l (map f l) = filter f l.
Proof.
  induction l as [|x t IH]; [reflexivity|]. cbn. rewrite IH.
  now destruct (f x).
Qed.

Lemma filter_map_snd {A B} (f : B -> bool) (l : list (A * B)) :
  map snd (filter (fun r => f (snd r)) l) = filter f (map snd l).
Proof.
  induction l as [|x t IH]; [reflexivity|]. cbn.
  destruct (f (snd x)); cbn; now rewrite IH.
Qed.

Lemma combine_fst {A B} (l : list A) (l' : list B) :
  length l = length l' -> map fst (combine l l') = l.
Proof.
  revert l'. induction l as [|x t IH]; intros [|y t']; cbn; try discriminate;
    [reflexivity|]. intros [= H]. now rewrite IH.
Qed.

Lemma combine_snd {A B} (l : list A) (l' : list B) :
  length l = length l' -> map snd (combine l l') = l'.
Proof.
  revert l'. induction l as [|x t IH]; intros [|y t']; cbn; try discriminate;
    [reflexivity|]. intros [= H]. now rewrite IH.
Qed.

Lemma reset_index_drop_index (df : DataFrame) :
  index (reset_index_drop df) = seq 0 (length (rows df)).
Proof.
  unfold index, reset_index_drop, seq_index, values. cbn.
  apply combine_fst. now rewrite length_seq, length_map.
Qed.

Lemma reset_index_drop_values (df : DataFrame) :
  values (reset_index_drop df) = values df.
Proof.
  unfold reset_index_drop, seq_index, values at 1. cbn.
  apply combine_snd. unfold values. now rewrite length_seq, length_map.
Qed.

(** The mask of the filter step selects the rows with a [Name]. *)
Lemma getitem_Name (df : DataFrame) (name : Series) :
  getitem df "Name" = inr name ->
  getitem_mask df (Series_notna name) =
  mkDataFrame (columns df)
    (filter (fun r : row => notna (row_value (columns df) (snd r) "Name"))
            (rows df)).
Proof.
  unfold getitem. destruct (has_column (columns df) "Name"); [|discriminate].
  intros [= <-]. unfold getitem_mask, Series_notna. rewrite map_map. cbn.
  now rewrite select_map.
Qed.



(** What [_validate_data] does on an instance. *)
Lemma _validate_data_run (self : ExcelClient) :
  _validate_data self =
  let df := dataframe self in
  if any (isna_any_axis1 df)
  then (inl (ValidationError (loc_rows df (isna_any_axis1 df))), self)
  else
    match astype df FEATURES with
    | inl e =>
        (inl (CoercionError e),
         with_dataframe self df [no_missing; (ERROR, conversion_msg e)])
    | inr out => (inr tt, with_dataframe self out [no_missing])
    end.
Proof.
  unfold _validate_data, with_dataframe.
  unfold_ops.
  fields.
  destruct (any (isna_any_axis1 (dataframe self))); [reflexivity|].
  fields.
  destruct (astype (dataframe self) FEATURES) as [e|out];
    fields; [|reflexivity].
  now rewrite app_assoc2.
Qed.

(** **** Conversion *)

Lemma astype_column_inr (d : dtype) (col ys : list cell) :
  astype_column d col = inr ys ->
  Forall2 (fun x y => astype_cell d x = inr y) col ys.
Proof.
  revert ys. induction col as [|x t IH]; cbn; intros ys H.
  - injection H as <-. constructor.
  - destruct (astype_cell d x) as [e|y] eqn:E; [discriminate|].
    destruct (astype_column d t) as [e|ys'] eqn:E'; [discriminate|].
    injection H as <-. constructor; auto.
Qed.

Lemma astype_column_ok (d : dtype) (col : list cell) :
  (forall x, In x col -> exists y, astype_cell d x = inr y) ->
  exists ys, astype_column d col = inr ys.
Proof.
  induction col as [|x t IH]; cbn; intros H; [now eexists|].
  destruct (H x (or_introl eq_refl)) as (y & ->).
  destruct IH as (ys & ->); [intros; apply H; now right|]. now eexists.
Qed.

Lemma astype_cell_has_dtype (d : dtype) (x y : cell) :
  astype_cell d x = inr y -> has_dtype d y = true.
Proof.
  destruct d; cbn.
  - now intros [= <-].
  - destruct x as [|s|z|b]; try discriminate.
    + destruct (int_of_text s) as [z|]; [|discriminate].
      destruct (in_int64 z) eqn:E; [|discriminate]. now intros [= <-].
    + destruct (in_int64 z) eqn:E; [|discriminate]. now intros [= <-].
    + intros [= <-]. now destruct b.
  - now intros [= <-].
Qed.

(** The columns of a conversion that succeeded, position by position. *)
Lemma astype_columns_inr (schema : list (string * dtype)) (rs : list row)
  (cols : list cell) :
  forall (j : nat) (cs : list (list cell)),
    astype_columns schema cols j rs = inr cs ->
    length cs = length cols
    /\ forall p c, nth_error cols p = Some c ->
         exists col, nth_error cs p = Some col
           /\ match dtype_of schema c with
              | Some d => astype_column d (column_at rs (j + p)) = inr col
              | None => col = column_at rs (j + p)
              end.
Proof.
  induction cols as [|c0 t IH]; cbn; intros j cs H.
  - injection H as <-. split; [reflexivity|]. now intros [|p] c.
  - destruct (match dtype_of schema c0 with
              | Some d => astype_column d (column_at rs j)
              | None => inr (column_at rs j)
              end) as [e|col0] eqn:E0; [discriminate|].
    destruct (astype_columns schema t (S j) rs) as [e|cs'] eqn:E';
      [discriminate|].
    injection H as <-. destruct (IH _ _ E') as [Hlen Hnth].
    split; [cbn; now rewrite Hlen|].
    intros [|p] c; cbn.
    + intros [= <-]. exists col0. split; [reflexivity|].
      rewrite Nat.add_0_r. destruct (dtype_of schema c0); congruence.
    + intros Hc. destruct (Hnth p c Hc) as (col & Hcol & Hd).
      exists col. split; [assumption|].
      now rewrite Nat.add_succ_r.
Qed.

Lemma astype_columns_ok (schema : list (string * dtype)) (rs : list row)
  (cols : list cell) :
  forall j : nat,
    (forall p c d x,
        nth_error cols p = Some c -> dtype_of schema c = Some d ->
        In x (column_at rs (j + p)) -> exists y, astype_cell d x = inr y) ->
    exists cs, astype_columns schema cols j rs = inr cs.
Proof.
  induction cols as [|c0 t IH]; cbn; intros j H; [now eexists|].
  assert (exists col0,
             match dtype_of schema c0 with
             | Some d => astype_column d (column_at rs j)
             | None => inr (column_at rs j)
             end = inr col0) as (col0 & ->).
  { destruct (dtype_of schema c0) as [d|] eqn:E; [|now eexists].
    apply astype_column_ok. intros x Hx. apply (H 0 c0 d x); auto.
    now rewrite Nat.add_0_r. }
  destruct (IH (S j)) as (cs & ->); [|now eexists].
  intros p c d x Hc Hd Hx. apply (H (S p) c d x); auto.
  now rewrite Nat.add_succ_r.
Qed.

(** A value that cannot be converted makes [astype] fail. *)
Lemma astype_unconvertible (df : DataFrame) (k : string) (d : dtype)
  (r : list cell) (e0 : exn) :
  dtype_of FEATURES (Str k) = Some d ->
  In r (values df) ->
  has_column (columns df) k = true ->
  astype_cell d (row_value (columns df) r k) = inl e0 ->
  exists e, astype df FEATURES = inl e.
Proof.
  intros Hd Hr Hk Hx.
  destruct (astype df FEATURES) as [e|out] eqn:E; [now eexists|exfalso].
  unfold astype in E.
  destruct (forallb _ FEATURES); [|discriminate].
  destruct (astype_columns FEATURES (columns df) 0 (rows df)) as [e|cs] eqn:Ec;
    [discriminate|].
  unfold has_column in Hk. unfold row_value in Hx.
  destruct (get_loc (Str k) (columns df)) as [p|] eqn:Ep; [|discriminate].
  apply get_loc_Some in Ep.
  destruct (astype_columns_inr _ _ _ _ _ Ec) as [_ Hnth].
  destruct (Hnth p _ Ep) as (col & _ & Hcol). rewrite Hd in Hcol. cbn in Hcol.
  apply astype_column_inr in Hcol.
  assert (In (cell_at r p) (column_at (rows df) p)) as Hin.
  { unfold column_at, values in *. apply in_map_iff in Hr.
    destruct Hr as (r' & <- & Hr'). apply in_map_iff. now exists r'. }
  revert Hin Hx. clear -Hcol. induction Hcol as [|x y l l' Hxy _ IH]; cbn.
  - intros [].
  - intros [->|Hin] Hx; [congruence|auto].
Qed.

Lemma Forall2_nth_error_l {A B} (R : A -> B -> Prop) (l : list A)
  (l' : list B) (i : nat) (x : A) :
  Forall2 R l l' -> nth_error l i = Some x ->
  exists y, nth_error l' i = Some y /\ R x y.
Proof.
  intros H. revert i. induction H as [|a b l l' Hab _ IH]; intros [|i]; cbn;
    try discriminate.
  - intros [= <-]. now exists b.
  - apply IH.
Qed.

Lemma Forall2_of_nth_error {A B} (R : A -> B -> Prop) (l : list A)
  (l' : list B) :
  length l = length l' ->
  (forall i x, nth_error l i = Some x ->
               exists y, nth_error l' i = Some y /\ R x y) ->
  Forall2 R l l'.
Proof.
  revert l'. induction l as [|a t IH]; intros [|b t']; cbn; try discriminate.
  - constructor.
  - intros [= Hlen] H. constructor.
    + destruct (H 0 a eq_refl) as (y & [= <-] & Hy). exact Hy.
    + apply IH; [assumption|]. intros i x Hx. exact (H (S i) x Hx).
Qed.

Lemma rows_of_columns_index (idx : list nat) (cs : list (list cell)) :
  map fst (rows_of_columns idx cs) = idx.
Proof.
  unfold rows_of_columns, seq_index. apply combine_fst.
  now rewrite length_map, length_seq.
Qed.

Lemma rows_of_columns_values (idx : list nat) (cs : list (list cell)) :
  map snd (rows_of_columns idx cs)
  = map (fun i => map (fun col => nth i col NaN) cs) (seq 0 (length idx)).
Proof.
  unfold rows_of_columns, seq_index. apply combine_snd.
  now rewrite length_map, length_seq.
Qed.

(** The frame of a conversion that succeeded, cell by cell: labels and index
    are kept, and the value at each position is the converted value of the
    cell it comes from. *)
Lemma astype_inr (df out : DataFrame) (schema : list (string * dtype)) :
  astype df schema = inr out ->
  columns out = columns df
  /\ index out = index df
  /\ forall i r, nth_error (values df) i = Some r ->
       exists r', nth_error (values out) i = Some r'
         /\ length r' = length (columns df)
         /\ forall p c, nth_error (columns df) p = Some c ->
              exists y, nth_error r' p = Some y
                /\ match dtype_of schema c with
                   | Some d => astype_cell d (cell_at r p) = inr y
                   | None => y = cell_at r p
                   end.
Proof.
  unfold astype. destruct (forallb _ schema); [|discriminate].
  destruct (astype_columns schema (columns df) 0 (rows df)) as [e|cs] eqn:Ec;
    [discriminate|].
  intros [= <-]. cbn [columns]. split; [reflexivity|].
  unfold index at 1, values at 2. cbn [rows].
  rewrite rows_of_columns_index, rows_of_columns_values.
  split; [reflexivity|]. intros i r Hr.
  destruct (astype_columns_inr _ _ _ _ _ Ec) as [Hlen Hnth].
  assert (i < length (rows df)) as Hi.
  { unfold values in Hr. rewrite nth_error_map in Hr.
    apply nth_error_Some. destruct (nth_error (rows df) i);
      [discriminate|discriminate Hr]. }
  exists (map (fun col => nth i col NaN) cs). split; [|split].
  - rewrite nth_error_map, nth_error_seq. unfold index.
    rewrite length_map. apply Nat.ltb_lt in Hi. now rewrite Hi.
  - now rewrite length_map.
  - intros p c Hc. destruct (Hnth p c Hc) as (col & Hcol & Hd).
    exists (nth i col NaN). split; [now rewrite nth_error_map, Hcol|].
    assert (nth_error (column_at (rows df) p) i = Some (cell_at r p)) as Hx.
    { unfold column_at, values in *. rewrite nth_error_map in *.
      destruct (nth_error (rows df) i) as [r0|]; [|discriminate].
      cbn in *. congruence. }
    cbn [Nat.add] in Hd. destruct (dtype_of schema c) as [d|].
    + apply astype_column_inr in Hd.
      destruct (Forall2_nth_error_l _ _ _ _ _ Hd Hx) as (y & Hy & Hxy).
      now rewrite (nth_error_nth _ _ _ Hy).
    + subst col. now rewrite (nth_error_nth _ _ _ Hx).
Qed.

Lemma dtype_of_In (schema : list (string * dtype)) (k : string) (d : dtype) :
  dtype_of schema (Str k) = Some d -> In (k, d) schema.
Proof.
  induction schema as [|[k0 d0] t IH]; cbn; [discriminate|].
  destruct (String.eqb k0 k) eqn:E.
  - apply String.eqb_eq in E. intros [= <-]. left. now subst.
  - intros H. right. now apply IH.
Qed.

Lemma dtype_of_NoDup (schema : list (string * dtype)) (k : string)
  (d : dtype) :
  NoDup (map fst schema) -> In (k, d) schema ->
  dtype_of schema (Str k) = Some d.
Proof.
  induction schema as [|[k0 d0] t IH]; cbn; [intros _ []|].
  intros Hnd [H|H].
  - injection H as -> ->. now rewrite String.eqb_refl.
  - inversion Hnd as [|? ? Hnotin Hnd']; subst.
    destruct (String.eqb k0 k) eqn:E; [|now apply IH].
    apply String.eqb_eq in E. subst. exfalso. apply Hnotin.
    change k with (fst (k, d)). now apply in_map.
Qed.

Lemma filter_all {A} (f : A -> bool) (l : list A) :
  (forall x, In x l -> f x = true) -> filter f l = l.
Proof.
  induction l as [|x t IH]; [reflexivity|]. cbn. intros H.
  rewrite (H x (or_introl eq_refl)), IH; [reflexivity|].
  intros; apply H; now right.
Qed.

Lemma any_isna_false (df : DataFrame) :
  (forall r x, In r (values df) -> In x r -> x <> NaN) ->
  any (isna_any_axis1 df) = false.
Proof.
  unfold any, isna_any_axis1, values.
  induction (rows df) as [|r t IH]; [reflexivity|]. cbn. intros H.
  rewrite IH by (intros; eapply H; eauto).
  assert (existsb isna (snd r) = false) as ->; [|reflexivity].
  destruct (existsb isna (snd r)) eqn:E; [|reflexivity].
  apply existsb_exists in E. destruct E as (x & Hx & Hna).
  destruct x; try discriminate. exfalso. now apply (H (snd r) NaN); auto.
Qed.

Lemma astype_ok (df : DataFrame) (schema : list (string * dtype)) :
  (forall kd, In kd schema -> In (Str (fst kd)) (columns df)) ->
  (forall p c d r,
      nth_error (columns df) p = Some c -> dtype_of schema c = Some d ->
      In r (values df) -> exists y, astype_cell d (cell_at r p) = inr y) ->
  exists out, astype df schema = inr out.
Proof.
  intros Hkeys Hconv. unfold astype.
  replace (forallb (fun kd => has_column (columns df) (fst kd)) schema)
    with true.
  2:{ symmetry. apply forallb_forall. intros kd Hkd.
      apply has_column_In. now apply Hkeys. }
  destruct (astype_columns_ok schema (rows df) (columns df) 0) as (cs & ->);
    [|now eexists].
  intros p c d x Hc Hd Hx. cbn [Nat.add] in Hx. unfold column_at in Hx.
  apply in_map_iff in Hx. destruct Hx as (r & <- & Hr).
  apply (Hconv p c d (snd r) Hc Hd). unfold values. now apply in_map.
Qed.

(** The table the filter step leaves, by labels, values and index. *)
Lemma filtered_spec (proj : DataFrame) (name : Series) :
  getitem proj "Name" = inr name ->
  columns (filtered proj name) = columns proj
  /\ values (filtered proj name)
     = filter (fun r => notna (row_value (columns proj) r "Name"))
              (values proj)
  /\ index (filtered proj name)
     = seq 0 (length (values (filtered proj name))).
Proof.
  intros Hget. unfold filtered. rewrite (getitem_Name _ _ Hget).
  split; [reflexivity|].
  rewrite reset_index_drop_index, reset_index_drop_values.
  unfold values. cbn [rows]. rewrite length_map. split; [|reflexivity].
  apply (filter_map_snd
           (fun r => notna (row_value (columns proj) r "Name"))).
Qed.






(** No table the reader delivers holds the empty text: the cell is NaN. *)
Lemma read_cell_not_empty (c : cell) : read_cell c <> Str "".
Proof.
  unfold read_cell. destruct c as [|s|z|b]; try discriminate.
  destruct (existsb (String.eqb s) na_values) eqn:E; [discriminate|].
  intros [= ->]. discriminate E.
Qed.

Lemma parse_grid_no_empty_text (grid : list (list cell))
  (header : option nat) (r : list cell) :
  In r (values (parse_grid grid header)) -> ~ In (Str "") r.
Proof.
  assert (forall body : list (list cell),
             In r (map snd (combine (seq_index body)
                                    (map (map read_cell) body))) ->
             ~ In (Str "") r) as Hbody.
  { intros body Hr Hin. rewrite combine_snd in Hr
      by (unfold seq_index; now rewrite length_seq, length_map).
    apply in_map_iff in Hr. destruct Hr as (r0 & <- & _).
    apply in_map_iff in Hin. destruct Hin as (c & Hc & _).
    exact (read_cell_not_empty c Hc). }
  unfold parse_grid, values. destruct header as [n|]; [|apply Hbody].
  destruct (skipn n grid) as [|hd body]; [intros []|apply Hbody].
Qed.

(** *** Failures of the read step *)

(** C3, as the class behaves.  When the path of the instance leads to no
    file and opening it raises [e0]: if [e0] is a [FileNotFoundError],
    [load_excel] raises a [FileNotFoundError] whose message names the path,
    with [e0] as its cause; if [e0] is of another class, [load_excel] raises
    the [ValueError] of the read step, wrapping [e0].  The stored dataframe
    is untouched in both cases. *)
Theorem c3_missing_file_raises_FileNotFoundError
  (sheet_name : string) (header return_output : bool) (self : ExcelClient)
  (e0 : exn) :
  fs (file_path self) = Missing e0 ->
  (is_FileNotFoundError e0 = true ->
   exists e,
     fst (load_excel sheet_name header return_output self) = inl e
     /\ etype e = FileNotFoundError
     /\ emsg e = "File '" ++ file_path self ++ "' not found."
     /\ cause e = Some e0)
  /\ (is_FileNotFoundError e0 = false ->
      fst (load_excel sheet_name header return_output self)
      = inl (Exn ValueError
               ("Exception raised during file readout: " ++ str e0)
               (Some e0)))
  /\ dataframe (snd (load_excel sheet_name header return_output self))
     = dataframe self.
Proof.
  intros Hfs.
  assert (read_excel (file_path self) sheet_name (Some 0) = inl e0) as Hread
    by (unfold read_excel; now rewrite Hfs).
  rewrite (load_excel_unread _ _ _ _ _ Hread).
  split; [|split].
  - intros ->. cbn. eexists. repeat split.
  - now intros ->.
  - now destruct (is_FileNotFoundError e0).
Qed.

(** C4.  When the file is a workbook without the sheet asked for, or the
    reader fails with any exception other than a [FileNotFoundError],
    [load_excel] raises the [ValueError] of the read step: its message is the
    readout text followed by the text of the underlying exception [e], and
    [e] itself is kept as its cause. *)
Theorem c4_read_failure_raises_ParseError
  (sheet_name : string) (header return_output : bool) (self : ExcelClient)
  (e : exn) :
  (exists sheets,
      fs (file_path self) = Workbook sheets
      /\ get_sheet sheet_name sheets = None
      /\ e = Exn ValueError
               ("Worksheet named " ++ quoted sheet_name ++ " not found") None)
  \/ (read_excel (file_path self) sheet_name (Some 0) = inl e
      /\ is_FileNotFoundError e = false) ->
  fst (load_excel sheet_name header return_output self)
  = inl (Exn ValueError
           ("Exception raised during file readout: " ++ str e) (Some e))
  /\ dataframe (snd (load_excel sheet_name header return_output self))
     = dataframe self.
Proof.
  intros H.
  assert (read_excel (file_path self) sheet_name (Some 0) = inl e
          /\ is_FileNotFoundError e = false) as [Hread Hk].
  { destruct H as [(sheets & Hfs & Hs & ->)|H]; [|exact H].
    split; [|reflexivity]. unfold read_excel. now rewrite Hfs, Hs. }
  rewrite (load_excel_unread _ _ _ _ _ Hread), Hk. now cbn.
Qed.

(** *** The projection *)

(** C5, as the class behaves.  When a column of the schema is absent from the
    table read, [load_excel] does not pass: it fails with the [KeyError] of
    the selection by name itself, which the class neither catches nor wraps
    (no cause, none of the exceptions the class constructs), and the stored
    dataframe is the table read. *)
Theorem c5_absent_column_raises_KeyError
  (sheet_name : string) (header return_output : bool) (self : ExcelClient)
  (raw : DataFrame) (k : string) :
  read_excel (file_path self) sheet_name (Some 0) = inr raw ->
  In k FEATURES_keys ->
  ~ In (Str k) (columns raw) ->
  exists msg,
    fst (load_excel sheet_name header return_output self)
    = inl (Exn KeyError msg None)
    /\ ~ raised_by_class (Exn KeyError msg None)
    /\ dataframe (snd (load_excel sheet_name header return_output self)) = raw.
Proof.
  intros Hread Hk Hn.
  destruct (loc_columns_absent raw FEATURES_keys k Hk Hn) as (msg & Hm).
  rewrite (load_excel_read _ _ _ _ _ Hread), Hm. cbn.
  exists msg. repeat split.
  intros [(p & c & H)|[(c & H)|[(o & H)|(c & H)]]]; discriminate.
Qed.

(** *** The filter step *)

(** C6.  On a table holding every column of the schema, projection and
    filter ([_format_df] without validation) leave the projected rows of
    exactly those rows whose [Name] value is not missing, in their order,
    under the index labels 0, 1, 2, ...  Missing covers the empty cell and the
    empty text of a sheet: the table the reader delivers holds NaN for both,
    never the empty text. *)
Theorem c6_filter_drops_rows_without_name (self : ExcelClient)
  (proj : DataFrame) :
  In "Name" FEATURES_keys ->
  loc_columns (dataframe self) FEATURES_keys = inr proj ->
  exists out,
    _format_df false self
    = (inr tt, mkExcelClient (file_path self) out (logger self))
    /\ columns out = map Str FEATURES_keys
    /\ values out
       = map (fun r => map (row_value (columns (dataframe self)) r)
                           FEATURES_keys)
           (filter (fun r => notna (row_value (columns (dataframe self)) r
                                              "Name"))
                   (values (dataframe self)))
    /\ index out = seq 0 (length (values out))
    /\ (forall grid header r,
          In r (values (parse_grid grid header)) -> ~ In (Str "") r).
Proof.
  intros HName Hproj.
  destruct (loc_columns_inr _ _ _ Hproj) as [_ Hp].
  assert (getitem proj "Name"
          = inr (map (fun r : row =>
                        (fst r, row_value (columns proj) (snd r) "Name"))
                     (rows proj))) as Hget.
  { unfold getitem. rewrite (proj2 (has_column_In _ _)); [reflexivity|].
    rewrite Hp. cbn. now apply in_map. }
  exists (filtered proj (map (fun r : row =>
                     (fst r, row_value (columns proj) (snd r) "Name"))
                     (rows proj))).
  split.
  { unfold _format_df. unfold_ops. fields. rewrite Hproj. fields.
    rewrite Hget. reflexivity. }
  unfold filtered. rewrite (getitem_Name _ _ Hget).
  split; [now rewrite Hp|].
  assert (values (reset_index_drop
            {| columns := columns proj;
               rows := filter (fun r : row =>
                         notna (row_value (columns proj) (snd r) "Name"))
                         (rows proj) |})
          = map (fun r => map (row_value (columns (dataframe self)) r)
                              FEATURES_keys)
              (filter (fun r => notna (row_value (columns (dataframe self)) r
                                                 "Name"))
                      (values (dataframe self)))) as Hv.
  { rewrite reset_index_drop_values. unfold values. cbn [rows].
    rewrite Hp. cbn [rows columns]. clear Hget Hp Hproj.
    induction (rows (dataframe self)) as [|r t IH]; [reflexivity|].
    cbn. rewrite (row_value_projected _ _ _ HName).
    destruct (notna (row_value (columns (dataframe self)) (snd r) "Name"));
      cbn; now rewrite IH. }
  split; [exact Hv|]. split; [|exact parse_grid_no_empty_text].
  rewrite reset_index_drop_index, reset_index_drop_values.
  unfold values. now rewrite length_map.
Qed.

(** *** Validation and conversion *)


(** C1, as the class behaves.  Once the sheet was read, projected and
    filtered, the missing-value check comes first and inspects the table as
    filtered, before any conversion: a missing value makes [load_excel] raise
    the missing-value error with the unconverted table stored and no
    conversion attempted, whatever the other cells hold; and when nothing is
    missing and the conversion that follows raises [e], [load_excel] raises
    the conversion error wrapping [e], after the check has passed and logged
    so. *)
Theorem c1_missing_check_precedes_conversion
  (sheet_name : string) (header return_output : bool) (self : ExcelClient)
  (raw proj : DataFrame) (name : Series) :
  read_excel (file_path self) sheet_name (Some 0) = inr raw ->
  loc_columns raw FEATURES_keys = inr proj ->
  getitem proj "Name" = inr name ->
  let filt := filtered proj name in
  (any (isna_any_axis1 filt) = true ->
   load_excel sheet_name header return_output self
   = (inl (ValidationError (loc_rows filt (isna_any_axis1 filt))),
      with_dataframe self filt [reading; formatting]))
  /\ (any (isna_any_axis1 filt) = false ->
      forall e,
        astype filt FEATURES = inl e ->
        load_excel sheet_name header return_output self
        = (inl (Exn ValueError
                  ("Exception raised during datatype conversion: " ++ str e)
                  (Some e)),
           with_dataframe self filt
             [reading; formatting; no_missing;
              (ERROR,
               "Exception raised during datatype conversion: " ++ str e)])).
Proof.
  intros Hread Hproj Hname filt.
  rewrite (load_excel_read _ _ _ _ _ Hread), Hproj, Hname.
  fold filt. cbv zeta. split.
  - now intros ->.
  - now intros -> e ->.
Qed.

(** *** What the caller gets *)

(** C9.  When [load_excel] succeeds, the validated table is the stored
    dataframe whatever [return_output] is; the value returned is that table
    when [return_output] is set and [None] when it is not. *)
Theorem c9_table_returned_or_retained
  (sheet_name : string) (header return_output : bool)
  (self self' : ExcelClient) (v : option DataFrame) :
  load_excel sheet_name header return_output self = (inr v, self') ->
  v = (if return_output then Some (dataframe self') else None)
  /\ load_excel sheet_name header (negb return_output) self
     = (inr (if negb return_output then Some (dataframe self') else None),
        self').
Proof.
  destruct (read_excel (file_path self) sheet_name (Some 0)) as [e|raw] eqn:Hr.
  - rewrite (load_excel_unread _ _ _ _ _ Hr).
    destruct (is_FileNotFoundError e); discriminate.
  - rewrite !(load_excel_read _ _ _ _ _ Hr).
    destruct (loc_columns raw FEATURES_keys) as [e|proj]; [discriminate|].
    destruct (getitem proj "Name") as [e|name]; [discriminate|].
    cbv zeta.
    destruct (any (isna_any_axis1 (filtered proj name))); [discriminate|].
    destruct (astype (filtered proj name) FEATURES) as [e|out];
      [discriminate|].
    intros [= <- <-]. cbn [dataframe with_dataframe]. now split.
Qed.

(** *** The state a failed call leaves *)

(** C10, as the class behaves.  When [load_excel] fails after the sheet was
    read, the stored dataframe is the table of the last assignment that took
    place: the table read when the projection fails, the projected table when
    the [Name] column cannot be taken, the projected and filtered,
    unconverted table when the missing-value check or the conversion fails.
    A later call on that instance whose read step succeeds does not use what
    was left: it runs as on an instance holding an empty frame.  A later call
    whose read step fails leaves the stored table as it was. *)
Theorem c10_failed_load_keeps_intermediate_table
  (sheet_name : string) (header return_output : bool)
  (self self' : ExcelClient) (raw : DataFrame) (e : exn) :
  read_excel (file_path self) sheet_name (Some 0) = inr raw ->
  load_excel sheet_name header return_output self = (inl e, self') ->
  (forall e', loc_columns raw FEATURES_keys = inl e' ->
              e = e' /\ dataframe self' = raw)
  /\ (forall proj e',
         loc_columns raw FEATURES_keys = inr proj ->
         getitem proj "Name" = inl e' ->
         e = e' /\ dataframe self' = proj)
  /\ (forall proj name,
         loc_columns raw FEATURES_keys = inr proj ->
         getitem proj "Name" = inr name ->
         dataframe self' = filtered proj name
         /\ ((any (isna_any_axis1 (filtered proj name)) = true
              /\ e = ValidationError
                       (loc_rows (filtered proj name)
                                 (isna_any_axis1 (filtered proj name))))
             \/ (any (isna_any_axis1 (filtered proj name)) = false
                 /\ exists c, astype (filtered proj name) FEATURES = inl c
                              /\ e = CoercionError c)))
  /\ (forall sheet_name' header' return_output' raw',
         read_excel (file_path self) sheet_name' (Some 0) = inr raw' ->
         load_excel sheet_name' header' return_output' self'
         = load_excel sheet_name' header' return_output'
             (mkExcelClient (file_path self) empty_DataFrame (logger self')))
  /\ (forall sheet_name' header' return_output' e',
         read_excel (file_path self) sheet_name' (Some 0) = inl e' ->
         dataframe (snd (load_excel sheet_name' header' return_output' self'))
         = dataframe self').
Proof.
  intros Hread Hload.
  rewrite (load_excel_read _ _ _ _ _ Hread) in Hload.
  assert (file_path self' = file_path self) as Hpath.
  { destruct (loc_columns raw FEATURES_keys) as [e1|proj];
      [now injection Hload as _ <-|].
    destruct (getitem proj "Name") as [e1|name];
      [now injection Hload as _ <-|].
    cbv zeta in Hload.
    destruct (any (isna_any_axis1 (filtered proj name)));
      [now injection Hload as _ <-|].
    destruct (astype (filtered proj name) FEATURES) as [e1|out];
      [now injection Hload as _ <-|discriminate]. }
  split; [|split; [|split; [|split]]].
  - intros e' He'. rewrite He' in Hload. now injection Hload as <- <-.
  - intros proj e' Hproj He'. rewrite Hproj, He' in Hload.
    now injection Hload as <- <-.
  - intros proj name Hproj Hname. rewrite Hproj, Hname in Hload.
    cbv zeta in Hload.
    destruct (any (isna_any_axis1 (filtered proj name))).
    + injection Hload as <- <-. split; [reflexivity|]. now left.
    + destruct (astype (filtered proj name) FEATURES) as [c|out];
        [|discriminate].
      injection Hload as <- <-. split; [reflexivity|].
      right. split; [reflexivity|]. now exists c.
  - intros sheet_name' header' return_output' raw' Hread'.
    rewrite (load_excel_read sheet_name' header' return_output' self' raw')
      by (now rewrite Hpath).
    rewrite (load_excel_read sheet_name' header' return_output'
               (mkExcelClient (file_path self) empty_DataFrame (logger self'))
               raw') by assumption.
    unfold with_dataframe. cbn [file_path logger]. now rewrite Hpath.
  - intros sheet_name' header' return_output' e' Hread'.
    rewrite (load_excel_unread sheet_name' header' return_output' self' e')
      by (now rewrite Hpath).
    now destruct (is_FileNotFoundError e').
Qed.

(** ** Further properties of the methods *)

(** What [_format_df] does on an instance. *)
Lemma _format_df_run (validate : bool) (self : ExcelClient) :
  _format_df validate self =
  match loc_columns (dataframe self) FEATURES_keys with
  | inl e => (inl e, self)
  | inr proj =>
      match getitem proj "Name" with
      | inl e => (inl e, mkExcelClient (file_path self) proj (logger self))
      | inr name =>
          let after :=
            mkExcelClient (file_path self) (filtered proj name) (logger self)
          in
          if validate then _validate_data after else (inr tt, after)
      end
  end.
Proof.
  unfold _format_df. unfold_ops. fields.
  destruct (loc_columns (dataframe self) FEATURES_keys) as [e|proj];
    [reflexivity|].
  fields. destruct (getitem proj "Name") as [e|name]; [reflexivity|].
  fields. fold (filtered proj name). now destruct validate.
Qed.

(** A call that succeeded went through every step. *)
Lemma load_excel_inr (sheet_name : string) (header return_output : bool)
  (self self' : ExcelClient) (v : option DataFrame) :
  load_excel sheet_name header return_output self = (inr v, self') ->
  exists raw proj name out,
    read_excel (file_path self) sheet_name (Some 0) = inr raw
    /\ loc_columns raw FEATURES_keys = inr proj
    /\ getitem proj "Name" = inr name
    /\ any (isna_any_axis1 (filtered proj name)) = false
    /\ astype (filtered proj name) FEATURES = inr out
    /\ v = (if return_output then Some out else None)
    /\ self' = with_dataframe self out [reading; formatting; no_missing].
Proof.
  destruct (read_excel (file_path self) sheet_name (Some 0)) as [e|raw] eqn:Hr.
  - rewrite (load_excel_unread _ _ _ _ _ Hr).
    destruct (is_FileNotFoundError e); discriminate.
  - rewrite (load_excel_read _ _ _ _ _ Hr).
    destruct (loc_columns raw FEATURES_keys) as [e|proj] eqn:Hp;
      [discriminate|].
    destruct (getitem proj "Name") as [e|name] eqn:Hn; [discriminate|].
    cbv zeta.
    destruct (any (isna_any_axis1 (filtered proj name))) eqn:Ha;
      [discriminate|].
    destruct (astype (filtered proj name) FEATURES) as [e|out] eqn:Ho;
      [discriminate|].
    intros [= <- <-]. exists raw, proj, name, out. repeat split; auto.
Qed.

Lemma In_Str_map (k : string) (keys : list string) :
  In (Str k) (map Str keys) <-> In k keys.
Proof.
  split; [|apply in_map]. intros H. apply in_map_iff in H.
  destruct H as (k' & [= ->] & Hk). exact Hk.
Qed.

Lemma filter_map_comm {A B} (f : A -> B) (g : B -> bool) (l : list A) :
  filter g (map f l) = map f (filter (fun x => g (f x)) l).
Proof.
  induction l as [|x t IH]; [reflexivity|]. cbn.
  destruct (g (f x)); cbn; now rewrite IH.
Qed.

(** The table the filter step leaves, in terms of the table read. *)
Lemma filtered_of_raw (raw proj : DataFrame) (name : Series) :
  loc_columns raw FEATURES_keys = inr proj ->
  getitem proj "Name" = inr name ->
  In "Name" FEATURES_keys
  /\ columns (filtered proj name) = map Str FEATURES_keys
  /\ values (filtered proj name)
     = map (fun r => map (row_value (columns raw) r) FEATURES_keys)
         (filter (fun r => notna (row_value (columns raw) r "Name"))
                 (values raw))
  /\ index (filtered proj name)
     = seq 0 (length (values (filtered proj name))).
Proof.
  intros Hproj Hget.
  destruct (loc_columns_inr _ _ _ Hproj) as [_ Hp].
  assert (In "Name" FEATURES_keys) as HName.
  { unfold getitem in Hget.
    destruct (has_column (columns proj) "Name") eqn:E; [|discriminate].
    apply has_column_In in E. rewrite Hp in E. now apply In_Str_map in E. }
  destruct (filtered_spec _ _ Hget) as (Hc & Hv & Hi).
  split; [exact HName|]. split; [now rewrite Hc, Hp|]. split; [|exact Hi].
  rewrite Hv, Hp. unfold values. cbn [rows columns].
  rewrite map_map. cbn [snd].
  rewrite <- (map_map snd (fun r => map (row_value (columns raw) r)
                                        FEATURES_keys)).
  rewrite filter_map_comm. f_equal. apply filter_ext. intros r.
  now rewrite (row_value_projected _ _ _ HName).
Qed.

Lemma loc_columns_inl (df : DataFrame) (keys : list string) (e : exn) :
  loc_columns df keys = inl e -> etype e = KeyError /\ cause e = None.
Proof.
  unfold loc_columns.
  destruct (filter (fun k => negb (has_column (columns df) k)) keys);
    [discriminate|]. now intros [= <-].
Qed.

Lemma getitem_inl (df : DataFrame) (k : string) (e : exn) :
  getitem df k = inl e ->
  e = Exn KeyError k (Some (Exn KeyError k None)).
Proof.
  unfold getitem. destruct (has_column (columns df) k); [discriminate|].
  now intros [= <-].
Qed.

(** The outcome and the stored table of a call, for two instances on the same
    path. *)
Lemma load_excel_same_path (sheet_name : string)
  (header return_output : bool) (s1 s2 : ExcelClient) :
  file_path s1 = file_path s2 ->
  fst (load_excel sheet_name header return_output s1)
  = fst (load_excel sheet_name header return_output s2)
  /\ dataframe (snd (load_excel sheet_name header return_output s1))
     = match read_excel (file_path s1) sheet_name (Some 0) with
       | inr _ => dataframe (snd (load_excel sheet_name header return_output
                                    s2))
       | inl _ => dataframe s1
       end.
Proof.
  intros Hpath.
  destruct (read_excel (file_path s1) sheet_name (Some 0)) as [e|raw] eqn:Hr.
  - rewrite (load_excel_unread _ _ _ s1 e Hr).
    rewrite (load_excel_unread _ _ _ s2 e) by (now rewrite <- Hpath).
    rewrite Hpath. now destruct (is_FileNotFoundError e).
  - rewrite (load_excel_read _ _ _ s1 raw Hr).
    rewrite (load_excel_read _ _ _ s2 raw) by (now rewrite <- Hpath).
    destruct (loc_columns raw FEATURES_keys) as [e|proj]; [now split|].
    destruct (getitem proj "Name") as [e|name]; [now split|].
    cbv zeta. destruct (any (isna_any_axis1 (filtered proj name)));
      [now split|].
    now destruct (astype (filtered proj name) FEATURES).
Qed.

Lemma load_excel_file_path (sheet_name : string)
  (header return_output : bool) (self : ExcelClient) :
  file_path (snd (load_excel sheet_name header return_output self))
  = file_path self.
Proof.
  destruct (read_excel (file_path self) sheet_name (Some 0)) as [e|raw] eqn:Hr.
  - rewrite (load_excel_unread _ _ _ _ _ Hr).
    now destruct (is_FileNotFoundError e).
  - rewrite (load_excel_read _ _ _ _ _ Hr).
    destruct (loc_columns raw FEATURES_keys) as [e|proj]; [reflexivity|].
    destruct (getitem proj "Name") as [e|name]; [reflexivity|].
    cbv zeta. destruct (any (isna_any_axis1 (filtered proj name)));
      [reflexivity|].
    now destruct (astype (filtered proj name) FEATURES).
Qed.

(** X1.  A call of [load_excel] repeated on the instance it left, with the
    same arguments, ends as the first call did, value returned or exception
    raised, and leaves the same table stored. *)
Theorem x1_load_excel_idempotent
  (sheet_name : string) (header return_output : bool) (self : ExcelClient) :
  fst (load_excel sheet_name header return_output
         (snd (load_excel sheet_name header return_output self)))
  = fst (load_excel sheet_name header return_output self)
  /\ dataframe
       (snd (load_excel sheet_name header return_output
               (snd (load_excel sheet_name header return_output self))))
     = dataframe (snd (load_excel sheet_name header return_output self)).
Proof.
  destruct (load_excel_same_path sheet_name header return_output
              (snd (load_excel sheet_name header return_output self)) self
              (load_excel_file_path _ _ _ _)) as [Hfst Hdf].
  split; [exact Hfst|]. rewrite Hdf.
  now destruct (read_excel _ sheet_name (Some 0)).
Qed.

(** X2.  What [load_excel] returns or raises depends on the path of the
    instance only, not on the table or the log records it holds; and when
    the sheet is read the table it leaves stored does not depend on them
    either, while a failed read leaves the table that was stored. *)
Theorem x2_load_excel_ignores_stored_state
  (sheet_name : string) (header return_output : bool) (path : string)
  (d1 d2 : DataFrame) (l1 l2 : list (level * string)) :
  fst (load_excel sheet_name header return_output
         (mkExcelClient path d1 l1))
  = fst (load_excel sheet_name header return_output
           (mkExcelClient path d2 l2))
  /\ dataframe (snd (load_excel sheet_name header return_output
                       (mkExcelClient path d1 l1)))
     = match read_excel path sheet_name (Some 0) with
       | inr _ => dataframe (snd (load_excel sheet_name header return_output
                                    (mkExcelClient path d2 l2)))
       | inl _ => d1
       end.
Proof.
  exact (load_excel_same_path sheet_name header return_output
           (mkExcelClient path d1 l1) (mkExcelClient path d2 l2) eq_refl).
Qed.

(** X3.  What a call of [load_excel] adds to the log is fixed by how it
    ends: three records on success; the two stage records and nothing else
    when it fails with a [KeyError] (of the selection of the columns or of
    the [Name] column) or with the missing-value error, the [ValueError]
    without a cause, so these failures are not logged; and, when it fails
    with a [FileNotFoundError] or a wrapping [ValueError] (read or conversion
    failure), an ERROR record carrying the message of the exception raised,
    as the last record.  No record is ever removed and the path is never
    changed. *)
Theorem x3_load_excel_log_records
  (sheet_name : string) (header return_output : bool) (self : ExcelClient) :
  file_path (snd (load_excel sheet_name header return_output self))
  = file_path self
  /\ match fst (load_excel sheet_name header return_output self) with
     | inr _ =>
         logger (snd (load_excel sheet_name header return_output self))
         = (logger self ++ [reading; formatting; no_missing])%list
     | inl e =>
         match etype e, cause e with
         | KeyError, _ | ValueError, None =>
             logger (snd (load_excel sheet_name header return_output self))
             = (logger self ++ [reading; formatting])%list
         | ValueError, Some _ =>
             logger (snd (load_excel sheet_name header return_output self))
             = (logger self ++ [reading; (ERROR, emsg e)])%list
             \/ logger (snd (load_excel sheet_name header return_output
                               self))
                = (logger self
                   ++ [reading; formatting; no_missing; (ERROR, emsg e)])%list
         | _, _ =>
             logger (snd (load_excel sheet_name header return_output self))
             = (logger self ++ [reading; (ERROR, emsg e)])%list
         end
     end.
Proof.
  split; [apply load_excel_file_path|].
  destruct (read_excel (file_path self) sheet_name (Some 0)) as [e|raw] eqn:Hr.
  - rewrite (load_excel_unread _ _ _ _ _ Hr).
    destruct (is_FileNotFoundError e); cbn; [reflexivity|now left].
  - rewrite (load_excel_read _ _ _ _ _ Hr).
    destruct (loc_columns raw FEATURES_keys) as [e|proj] eqn:Hp.
    { cbn [fst snd]. destruct (loc_columns_inl _ _ _ Hp) as [-> _].
      reflexivity. }
    destruct (getitem proj "Name") as [e|name] eqn:Hn.
    { cbn [fst snd]. now rewrite (getitem_inl _ _ _ Hn). }
    cbv zeta. destruct (any (isna_any_axis1 (filtered proj name)));
      [reflexivity|].
    destruct (astype (filtered proj name) FEATURES) as [e|out];
      [|reflexivity].
    cbn. now right.
Qed.

(** X4.  The exceptions [load_excel] lets out are of three classes only,
    whatever the reader or the conversion raised: [FileNotFoundError], raised
    exactly when the reader raised one; [ValueError]; and [KeyError], which
    is let out only after the sheet was read and is the very exception the
    selection of the columns, or of the [Name] column, raised, not wrapped
    by the class. *)
Theorem x4_load_excel_exception_classes
  (sheet_name : string) (header return_output : bool) (self : ExcelClient)
  (e : exn) :
  fst (load_excel sheet_name header return_output self) = inl e ->
  (etype e = FileNotFoundError \/ etype e = ValueError \/ etype e = KeyError)
  /\ (etype e = FileNotFoundError <->
      exists c, read_excel (file_path self) sheet_name (Some 0) = inl c
                /\ is_FileNotFoundError c = true)
  /\ (etype e = KeyError ->
      exists raw,
        read_excel (file_path self) sheet_name (Some 0) = inr raw
        /\ (loc_columns raw FEATURES_keys = inl e
            \/ exists proj, loc_columns raw FEATURES_keys = inr proj
                            /\ getitem proj "Name" = inl e)).
Proof.
  destruct (read_excel (file_path self) sheet_name (Some 0)) as [c|raw] eqn:Hr.
  - rewrite (load_excel_unread _ _ _ _ _ Hr).
    destruct (is_FileNotFoundError c) eqn:Hc; cbn [fst]; intros [= <-]; cbn.
    + split; [now left|]. split; [|discriminate].
      split; [intros _; now exists c|reflexivity].
    + split; [right; now left|]. split; [|discriminate].
      split; [discriminate|]. intros (c' & [= <-] & Hc'). congruence.
  - rewrite (load_excel_read _ _ _ _ _ Hr).
    assert ((exists c : exn, @inr exn DataFrame raw = inl c
                             /\ is_FileNotFoundError c = true)
            -> False) as Hno
      by (intros (c & Hc & _); discriminate).
    destruct (loc_columns raw FEATURES_keys) as [e'|proj] eqn:Hp.
    { cbn [fst]. intros [= <-].
      destruct (loc_columns_inl _ _ _ Hp) as [Ht _]. rewrite Ht.
      split; [right; now right|]. split.
      - split; [discriminate|]. intros H. now apply Hno in H.
      - intros _. exists raw. split; [reflexivity|now left]. }
    destruct (getitem proj "Name") as [e'|name] eqn:Hn.
    { cbn [fst]. intros [= <-]. pose proof (getitem_inl _ _ _ Hn) as He.
      assert (etype e' = KeyError) as Ht by (now rewrite He). rewrite Ht.
      split; [right; now right|]. split.
      - split; [discriminate|]. intros H. now apply Hno in H.
      - intros _. exists raw. split; [reflexivity|].
        right. now exists proj. }
    cbv zeta.
    destruct (any (isna_any_axis1 (filtered proj name))).
    { cbn [fst]. intros [= <-]. unfold ValidationError. cbn.
      split; [right; now left|]. split; [|discriminate].
      split; [discriminate|]. intros H. now apply Hno in H. }
    destruct (astype (filtered proj name) FEATURES) as [e'|out];
      cbn [fst]; [|discriminate].
    intros [= <-]. unfold CoercionError. cbn.
    split; [right; now left|]. split; [|discriminate].
    split; [discriminate|]. intros H. now apply Hno in H.
Qed.

Lemma dtype_of_keys (schema : list (string * dtype)) (k : string) :
  In k (map fst schema) -> exists d, dtype_of schema (Str k) = Some d.
Proof.
  induction schema as [|[k0 d0] t IH]; cbn; [intros []|].
  destruct (String.eqb k0 k) eqn:E; [intros _; now exists d0|].
  intros [->|H]; [rewrite String.eqb_refl in E; discriminate|now apply IH].
Qed.

Lemma has_dtype_notna (d : dtype) (y : cell) :
  has_dtype d y = true -> y <> NaN.
Proof. intros H ->. now destruct d. Qed.

Lemma Forall2_In_r {A B} (R : A -> B -> Prop) (l : list A) (l' : list B)
  (y : B) :
  Forall2 R l l' -> In y l' -> exists x, In x l /\ R x y.
Proof.
  induction 1 as [|a b l l' Hab _ IH]; cbn; [intros []|].
  intros [<-|H]; [exists a; auto|].
  destruct (IH H) as (x & Hx & Hr). exists x. auto.
Qed.

(** The rows of the table a successful call leaves: in order, the rows of
    the table read that have a [Name], each value converted to the dtype the
    schema declares for its column. *)
Lemma loaded_rows (raw proj out : DataFrame) (name : Series) :
  loc_columns raw FEATURES_keys = inr proj ->
  getitem proj "Name" = inr name ->
  astype (filtered proj name) FEATURES = inr out ->
  columns out = map Str FEATURES_keys
  /\ index out = seq 0 (length (values out))
  /\ Forall2
       (fun r r' =>
          Forall2
            (fun k y =>
               exists d, dtype_of FEATURES (Str k) = Some d
                         /\ astype_cell d (row_value (columns raw) r k)
                            = inr y)
            FEATURES_keys r')
       (filter (fun r => notna (row_value (columns raw) r "Name"))
               (values raw))
       (values out).
Proof.
  intros Hproj Hget Hout.
  destruct (filtered_of_raw _ _ _ Hproj Hget) as (HName & Hfc & Hfv & Hfi).
  destruct (astype_inr _ _ _ Hout) as (Hoc & Hoi & Hor).
  set (filt := filtered proj name) in *.
  assert (length (values out) = length (values filt)) as Hlen.
  { unfold values. rewrite !length_map. rewrite <- (length_map fst (rows out)).
    rewrite <- (length_map fst (rows filt)). fold (index out) (index filt).
    now rewrite Hoi. }
  split; [congruence|]. split; [now rewrite Hoi, Hfi, Hlen|].
  apply Forall2_of_nth_error.
  { rewrite Hlen, Hfv. now rewrite length_map. }
  intros i r Hr.
  destruct (Hor i (map (row_value (columns raw) r) FEATURES_keys))
    as (r' & Hr' & Hlr & Hcells).
  { now rewrite Hfv, nth_error_map, Hr. }
  exists r'. split; [exact Hr'|].
  apply Forall2_of_nth_error.
  { now rewrite Hlr, Hfc, length_map. }
  intros p k Hk.
  destruct (Hcells p (Str k)) as (y & Hy & Hconv).
  { rewrite Hfc, nth_error_map, Hk. reflexivity. }
  destruct (dtype_of_keys FEATURES k) as (d & Hd);
    [eapply nth_error_In; eauto|].
  rewrite Hd in Hconv. rewrite (cell_at_map _ _ _ _ Hk) in Hconv.
  exists y. split; [exact Hy|]. now exists d.
Qed.

(** Each cell of such a table is of the dtype declared for its column. *)
Lemma loaded_rows_typed (raw proj out : DataFrame) (name : Series)
  (r' : list cell) :
  loc_columns raw FEATURES_keys = inr proj ->
  getitem proj "Name" = inr name ->
  astype (filtered proj name) FEATURES = inr out ->
  In r' (values out) ->
  Forall2
    (fun k y =>
       exists d, dtype_of FEATURES (Str k) = Some d /\ has_dtype d y = true)
    FEATURES_keys r'.
Proof.
  intros Hproj Hget Hout Hr'.
  destruct (loaded_rows _ _ _ _ Hproj Hget Hout) as (_ & _ & Hrows).
  destruct (Forall2_In_r _ _ _ _ Hrows Hr') as (r & _ & Hrr').
  clear -Hrr'. induction Hrr' as [|k y ks ys (d & Hd & Hy) _ IH];
    constructor; [|exact IH].
  exists d. split; [exact Hd|]. eapply astype_cell_has_dtype; eauto.
Qed.

(** X5.  The table a successful call of [load_excel] leaves stored has
    exactly the columns of the schema, in the order of the schema, and the
    index labels 0, 1, 2, ...; each of its rows has one cell per column, no
    cell is missing, and each cell is of the dtype the schema declares for
    its column. *)
Theorem x5_loaded_table_invariant
  (sheet_name : string) (header return_output : bool)
  (self self' : ExcelClient) (v : option DataFrame) :
  load_excel sheet_name header return_output self = (inr v, self') ->
  columns (dataframe self') = map Str FEATURES_keys
  /\ index (dataframe self') = seq 0 (length (values (dataframe self')))
  /\ forall r,
       In r (values (dataframe self')) ->
       length r = length FEATURES_keys
       /\ (forall x, In x r -> x <> NaN)
       /\ Forall2
            (fun k y =>
               exists d, dtype_of FEATURES (Str k) = Some d
                         /\ has_dtype d y = true)
            FEATURES_keys r.
Proof.
  intros Hload.
  destruct (load_excel_inr _ _ _ _ _ _ Hload)
    as (raw & proj & name & out & _ & Hproj & Hget & _ & Hout & _ & ->).
  cbn [dataframe with_dataframe].
  destruct (loaded_rows _ _ _ _ Hproj Hget Hout) as (Hc & Hi & Hrows).
  split; [exact Hc|]. split; [exact Hi|]. intros r' Hr'.
  pose proof (loaded_rows_typed _ _ _ _ _ Hproj Hget Hout Hr') as Htyped.
  split; [symmetry; eapply Forall2_length; eauto|]. split; [|exact Htyped].
  intros x Hx.
  destruct (Forall2_In_r _ _ _ _ Htyped Hx) as (k & _ & d & _ & Hd).
  eapply has_dtype_notna; eauto.
Qed.


Lemma filter_idem {A} (f : A -> bool) (l : list A) :
  filter f (filter f l) = filter f l.
Proof.
  apply filter_all. intros x Hx. now apply filter_In in Hx.
Qed.

(** X7.  Rows without a [Name] do not take part in anything: on a table
    with pairwise distinct labels holding every column of the schema,
    [_format_df], with or without
    validation, ends the same way and leaves the same instance whether or not
    those rows were taken out of the table beforehand.  A row without a
    [Name] therefore never causes a missing-value or a conversion error. *)
Theorem x7_rows_without_name_are_ignored
  (validate : bool) (path : string) (cols : list cell) (rs : list row)
  (records : list (level * string)) :
  NoDup cols ->
  In "Name" FEATURES_keys ->
  (forall k, In k FEATURES_keys -> In (Str k) cols) ->
  _format_df validate
    (mkExcelClient path
       (mkDataFrame cols
          (filter (fun r : row => notna (row_value cols (snd r) "Name")) rs))
       records)
  = _format_df validate (mkExcelClient path (mkDataFrame cols rs) records).
Proof.
  intros _ HName Hcols.
  rewrite !_format_df_run. cbn [dataframe file_path logger].
  rewrite !loc_columns_present by exact Hcols. cbn [columns rows].
  set (pi := fun r : row =>
               (fst r, map (row_value cols (snd r)) FEATURES_keys)).
  set (f := fun r : row => notna (row_value cols (snd r) "Name")).
  assert (forall l : list row,
             exists name,
               getitem (mkDataFrame (map Str FEATURES_keys) (map pi l)) "Name"
               = inr name
               /\ filtered (mkDataFrame (map Str FEATURES_keys) (map pi l))
                           name
                  = reset_index_drop
                      (mkDataFrame (map Str FEATURES_keys)
                                   (map pi (filter f l)))) as Hfilt.
  { intros l.
    destruct (getitem (mkDataFrame (map Str FEATURES_keys) (map pi l)) "Name")
      as [e|name] eqn:Hget.
    { exfalso. unfold getitem in Hget. cbn [columns] in Hget.
      rewrite (proj2 (has_column_In _ _)) in Hget; [discriminate|].
      now apply in_map. }
    exists name. split; [reflexivity|]. unfold filtered.
    rewrite (getitem_Name _ _ Hget). cbn [columns rows].
    rewrite filter_map_comm. do 3 f_equal. apply filter_ext. intros r.
    unfold pi, f. cbn [snd].
    now rewrite (row_value_projected _ _ _ HName). }
  destruct (Hfilt rs) as (name & -> & ->).
  destruct (Hfilt (filter f rs)) as (name' & -> & ->).
  now rewrite filter_idem.
Qed.

Lemma combine_fst_snd {A B} (l : list (A * B)) :
  combine (map fst l) (map snd l) = l.
Proof.
  induction l as [|[a b] t IH]; [reflexivity|]. cbn. now rewrite IH.
Qed.

(** A frame is its labels, its index and its values. *)
Lemma DataFrame_ext (d1 d2 : DataFrame) :
  columns d1 = columns d2 -> index d1 = index d2 -> values d1 = values d2 ->
  d1 = d2.
Proof.
  destruct d1 as [c1 r1], d2 as [c2 r2]. unfold index, values. cbn.
  intros -> Hi Hv. f_equal.
  rewrite <- (combine_fst_snd r1), <- (combine_fst_snd r2). now rewrite Hi, Hv.
Qed.

Lemma reset_index_drop_fixed (df : DataFrame) :
  index df = seq 0 (length (values df)) -> reset_index_drop df = df.
Proof.
  intros Hi. apply DataFrame_ext.
  - reflexivity.
  - rewrite reset_index_drop_index, Hi. unfold values. now rewrite length_map.
  - apply reset_index_drop_values.
Qed.

(** A table that has the schema's labels and rows made of the values under
    these labels is its own projection. *)
Lemma loc_columns_fixed (df : DataFrame) :
  columns df = map Str FEATURES_keys ->
  (forall r, In r (values df) ->
             map (row_value (map Str FEATURES_keys) r) FEATURES_keys = r) ->
  loc_columns df FEATURES_keys = inr df.
Proof.
  intros Hc Hshape. rewrite loc_columns_present.
  2:{ intros k Hk. rewrite Hc. now apply in_map. }
  f_equal. apply DataFrame_ext; cbn [columns]; [now rewrite Hc| |].
  - unfold index. cbn [rows]. now rewrite map_map.
  - unfold values in *. cbn [rows]. rewrite map_map. cbn [snd].
    rewrite Hc. rewrite <- (map_map snd
                              (fun r => map (row_value (map Str FEATURES_keys)
                                                       r) FEATURES_keys)).
    rewrite <- (map_id (map snd (rows df))) at 2.
    apply map_ext_in. exact Hshape.
Qed.

Lemma projected_row_fixed (g : string -> cell) :
  map (row_value (map Str FEATURES_keys) (map g FEATURES_keys)) FEATURES_keys
  = map g FEATURES_keys.
Proof.
  apply map_ext_in. intros k Hk. now apply row_value_projected.
Qed.

(** What the filter step does to a table that has the schema's labels, the
    index labels 0, 1, 2, ... and a [Name] in every row: nothing. *)
Lemma filtered_fixed (df : DataFrame) (name : Series) :
  getitem df "Name" = inr name ->
  index df = seq 0 (length (values df)) ->
  (forall r, In r (values df) -> row_value (columns df) r "Name" <> NaN) ->
  filtered df name = df.
Proof.
  intros Hget Hi Hnotna. unfold filtered. rewrite (getitem_Name _ _ Hget).
  rewrite filter_all.
  - destruct df as [c r]. now apply reset_index_drop_fixed.
  - intros r Hr. specialize (Hnotna (snd r) (in_map snd _ _ Hr)).
    now destruct (row_value (columns df) (snd r) "Name").
Qed.

(** X8.  Projection and filter are idempotent: [_format_df] without
    validation, run again on the instance it left, ends as it did the first
    time, also when that was a [KeyError], and leaves the instance as it
    was. *)
Theorem x8_format_df_without_validation_idempotent (self : ExcelClient) :
  _format_df false (snd (_format_df false self)) = _format_df false self.
Proof.
  rewrite (_format_df_run false self).
  destruct (loc_columns (dataframe self) FEATURES_keys) as [e|proj] eqn:Hproj.
  { cbn [snd]. now rewrite _format_df_run, Hproj. }
  destruct (loc_columns_inr _ _ _ Hproj) as [_ Hp].
  assert (columns proj = map Str FEATURES_keys) as Hpc by (now rewrite Hp).
  assert (forall r, In r (values proj) ->
                    map (row_value (map Str FEATURES_keys) r) FEATURES_keys
                    = r) as Hshape.
  { intros r Hr. rewrite Hp in Hr. unfold values in Hr. cbn [rows] in Hr.
    rewrite map_map in Hr. cbn [snd] in Hr. apply in_map_iff in Hr.
    destruct Hr as (r0 & <- & _). apply projected_row_fixed. }
  destruct (getitem proj "Name") as [e|name] eqn:Hget.
  { cbn [snd]. rewrite _format_df_run. cbn [dataframe file_path logger].
    now rewrite (loc_columns_fixed proj Hpc Hshape), Hget. }
  cbv zeta. cbn [snd].
  rewrite _format_df_run. cbn [dataframe file_path logger].
  destruct (filtered_spec _ _ Hget) as (Hfc & Hfv & Hfi).
  set (filt := filtered proj name) in *.
  rewrite (loc_columns_fixed filt).
  2:{ now rewrite Hfc. }
  2:{ intros r Hr. apply Hshape. rewrite Hfv in Hr.
      now apply filter_In in Hr. }
  destruct (getitem filt "Name") as [e|name'] eqn:Hget'.
  { exfalso. unfold getitem in Hget, Hget'. rewrite Hfc in Hget'.
    destruct (has_column (columns proj) "Name"); discriminate. }
  cbv zeta. rewrite (filtered_fixed filt name' Hget' Hfi); [reflexivity|].
  intros r Hr. rewrite Hfv in Hr. apply filter_In in Hr.
  destruct Hr as [_ Hr]. rewrite Hfc.
  now destruct (row_value (columns proj) r "Name").
Qed.

(** X9.  Only the values under the names of the schema count: on two tables
    with pairwise distinct labels that hold every column of the schema and
    agree, row by row, on the index
    label and on the value under each name of the schema, [_format_df] ends
    the same way and leaves the same instance.  Columns outside the schema
    and the order of the columns in the sheet make no difference. *)
Theorem x9_format_df_depends_on_schema_columns_only
  (validate : bool) (path : string) (d1 d2 : DataFrame)
  (records : list (level * string)) :
  NoDup (columns d1) ->
  NoDup (columns d2) ->
  (forall k, In k FEATURES_keys -> In (Str k) (columns d1)) ->
  (forall k, In k FEATURES_keys -> In (Str k) (columns d2)) ->
  Forall2
    (fun r1 r2 : row =>
       fst r1 = fst r2
       /\ forall k, In k FEATURES_keys ->
                    row_value (columns d1) (snd r1) k
                    = row_value (columns d2) (snd r2) k)
    (rows d1) (rows d2) ->
  _format_df validate (mkExcelClient path d1 records)
  = _format_df validate (mkExcelClient path d2 records).
Proof.
  intros _ _ H1 H2 Hrows.
  rewrite !_format_df_run. cbn [dataframe file_path logger].
  rewrite (loc_columns_present _ _ H1), (loc_columns_present _ _ H2).
  replace (map (fun r : row =>
                  (fst r, map (row_value (columns d2) (snd r)) FEATURES_keys))
               (rows d2))
    with (map (fun r : row =>
                 (fst r, map (row_value (columns d1) (snd r)) FEATURES_keys))
              (rows d1)); [reflexivity|].
  induction Hrows as [|r1 r2 l1 l2 [Hi Hv] _ IH]; [reflexivity|].
  cbn. rewrite IH, Hi. do 2 f_equal. now apply map_ext_in.
Qed.

(** X10.  [_validate_data] on a table that lacks a column of the schema and
    holds no missing value, as the empty table of a new instance does, fails
    in the conversion: the [KeyError] of [astype] comes out wrapped in the
    conversion [ValueError] and is logged, where the [KeyError] of the
    selection in [_format_df] comes out bare; the stored table is kept. *)
Theorem x10_validate_data_on_table_without_schema_column
  (self : ExcelClient) (k : string) :
  In k FEATURES_keys ->
  ~ In (Str k) (columns (dataframe self)) ->
  any (isna_any_axis1 (dataframe self)) = false ->
  exists c,
    etype c = KeyError
    /\ _validate_data self
       = (inl (Exn ValueError
                 ("Exception raised during datatype conversion: " ++ str c)
                 (Some c)),
          mkExcelClient (file_path self) (dataframe self)
            (logger self
             ++ [(DEBUG, "Dataset loaded, no apparent missing values.");
                 (ERROR,
                  "Exception raised during datatype conversion: " ++ str c)])).
Proof.
  intros Hk Hn Hany. rewrite _validate_data_run. cbv zeta. rewrite Hany.
  unfold astype.
  replace (forallb (fun kd => has_column (columns (dataframe self)) (fst kd))
                   FEATURES) with false.
  - eexists. split; [|reflexivity]. reflexivity.
  - symmetry. apply not_true_is_false. intros H.
    unfold FEATURES_keys in Hk. apply in_map_iff in Hk.
    destruct Hk as (kd & <- & Hkd).
    rewrite forallb_forall in H. specialize (H kd Hkd).
    now apply has_column_In in H.
Qed.

(** Each row of such a table is made of the values under the schema's names:
    selecting them again by name gives the row back. *)
Lemma loaded_rows_shape (raw proj out : DataFrame) (name : Series)
  (r' : list cell) :
  loc_columns raw FEATURES_keys = inr proj ->
  getitem proj "Name" = inr name ->
  astype (filtered proj name) FEATURES = inr out ->
  In r' (values out) ->
  map (row_value (map Str FEATURES_keys) r') FEATURES_keys = r'.
Proof.
  intros Hproj Hget Hout Hr'.
  destruct (loaded_rows _ _ _ _ Hproj Hget Hout) as (_ & _ & Hrows).
  destruct (Forall2_In_r _ _ _ _ Hrows Hr') as (r & _ & Hrr').
  set (g := fun k =>
              match dtype_of FEATURES (Str k) with
              | Some d =>
                  match astype_cell d (row_value (columns raw) r k) with
                  | inr y => y
                  | inl _ => NaN
                  end
              | None => NaN
              end).
  assert (r' = map g FEATURES_keys) as ->; [|apply projected_row_fixed].
  clear -Hrr'. induction Hrr' as [|k y ks ys (d & Hd & Hy) _ IH];
    [reflexivity|].
  cbn. rewrite <- IH. f_equal. unfold g. now rewrite Hd, Hy.
Qed.

Lemma astype_cell_fixed (d : dtype) (y : cell) :
  has_dtype d y = true -> astype_cell d y = inr y.
Proof.
  destruct d, y as [|s|z|b]; cbn; try discriminate; try reflexivity.
  now intros ->.
Qed.

Lemma Forall2_eq_eq {A} (l l' : list A) : Forall2 eq l l' -> l = l'.
Proof. induction 1; [reflexivity|]. now subst. Qed.

(** Converting a table whose cells already are of the dtypes declared for
    their columns gives the table back. *)
Lemma astype_fixed (df : DataFrame) :
  columns df = map Str FEATURES_keys ->
  (forall r, In r (values df) ->
             Forall2
               (fun k y =>
                  exists d, dtype_of FEATURES (Str k) = Some d
                            /\ has_dtype d y = true)
               FEATURES_keys r) ->
  astype df FEATURES = inr df.
Proof.
  intros Hc Htyped.
  assert (forall p c d r,
             nth_error (columns df) p = Some c ->
             dtype_of FEATURES c = Some d -> In r (values df) ->
             exists x, nth_error r p = Some x /\ cell_at r p = x
                       /\ astype_cell d x = inr x) as Hcell.
  { intros p c d r Hp Hd Hr. rewrite Hc, nth_error_map in Hp.
    destruct (nth_error FEATURES_keys p) as [k|] eqn:Hk; [|discriminate].
    injection Hp as <-.
    destruct (Forall2_nth_error_l _ _ _ _ _ (Htyped r Hr) Hk)
      as (x & Hx & d' & Hd' & Hty).
    exists x. split; [exact Hx|]. split.
    - unfold cell_at. now apply nth_error_nth.
    - apply astype_cell_fixed. congruence. }
  destruct (astype_ok df FEATURES) as (out & Hout).
  { intros [k d] Hkd. rewrite Hc. apply in_map. unfold FEATURES_keys.
    change k with (fst (k, d)). now apply in_map. }
  { intros p c d r Hp Hd Hr.
    destruct (Hcell p c d r Hp Hd Hr) as (x & _ & -> & Hx). now exists x. }
  rewrite Hout. f_equal.
  destruct (astype_inr _ _ _ Hout) as (Hoc & Hoi & Hor).
  assert (length (values out) = length (values df)) as Hlen.
  { unfold values. rewrite !length_map. rewrite <- (length_map fst (rows out)).
    rewrite <- (length_map fst (rows df)). fold (index out) (index df).
    now rewrite Hoi. }
  apply DataFrame_ext; [exact Hoc|exact Hoi|]. symmetry.
  apply Forall2_eq_eq, Forall2_of_nth_error; [now rewrite Hlen|].
  intros i r Hr. destruct (Hor i r Hr) as (r' & Hr' & Hlr & Hcells).
  exists r'. split; [exact Hr'|].
  assert (In r (values df)) as Hin by (eapply nth_error_In; eauto).
  assert (length r = length FEATURES_keys) as Hlr0
    by (symmetry; eapply Forall2_length; apply (Htyped r Hin)).
  apply Forall2_eq_eq, Forall2_of_nth_error.
  { now rewrite Hlr, Hlr0, Hc, length_map. }
  intros p x Hx.
  assert (p < length (columns df)) as Hp.
  { rewrite Hc, length_map, <- Hlr0. apply nth_error_Some. congruence. }
  assert (exists c, nth_error (columns df) p = Some c) as (c & Ec).
  { destruct (nth_error (columns df) p) as [c|] eqn:E; [now exists c|].
    apply nth_error_None in E. lia. }
  destruct (Hcells p c Ec) as (y & Hy & Hconv).
  exists y. split; [exact Hy|].
  assert (exists d, dtype_of FEATURES c = Some d) as (d & Hd).
  { pose proof Ec as Ec'. rewrite Hc, nth_error_map in Ec'.
    destruct (nth_error FEATURES_keys p) as [k|] eqn:Hk; [|discriminate].
    injection Ec' as <-. apply dtype_of_keys. eapply nth_error_In; eauto. }
  rewrite Hd in Hconv.
  destruct (Hcell p c d r Ec Hd Hin) as (x' & Hx' & Hcx & Hfix).
  rewrite Hcx, Hfix in Hconv. congruence.
Qed.

(** X11.  Formatting and validating again a table that [load_excel] has
    loaded changes nothing: on the instance a successful call left,
    [_format_df] with validation succeeds and leaves the stored table as it
    is, adding one record to the log. *)
Theorem x11_format_df_on_loaded_table
  (sheet_name : string) (header return_output : bool)
  (self self' : ExcelClient) (v : option DataFrame) :
  load_excel sheet_name header return_output self = (inr v, self') ->
  _format_df true self'
  = (inr tt,
     mkExcelClient (file_path self') (dataframe self')
       (logger self'
        ++ [(DEBUG, "Dataset loaded, no apparent missing values.")])).
Proof.
  intros Hload.
  destruct (load_excel_inr _ _ _ _ _ _ Hload)
    as (raw & proj & name & out & _ & Hproj & Hget & _ & Hout & _ & ->).
  destruct (filtered_of_raw _ _ _ Hproj Hget) as (HName & _).
  destruct (loaded_rows _ _ _ _ Hproj Hget Hout) as (Hc & Hi & _).
  pose proof (fun r Hr => loaded_rows_typed _ _ _ _ r Hproj Hget Hout Hr)
    as Htyped.
  pose proof (fun r Hr => loaded_rows_shape _ _ _ _ r Hproj Hget Hout Hr)
    as Hshape.
  assert (forall r x, In r (values out) -> In x r -> x <> NaN) as Hnotna.
  { intros r x Hr Hx.
    destruct (Forall2_In_r _ _ _ _ (Htyped r Hr) Hx) as (k & _ & d & _ & Hd).
    eapply has_dtype_notna; eauto. }
  rewrite _format_df_run. cbn [dataframe with_dataframe file_path logger].
  rewrite (loc_columns_fixed out Hc Hshape).
  destruct (getitem out "Name") as [e|name'] eqn:Hget'.
  { exfalso. unfold getitem in Hget'. rewrite Hc in Hget'.
    rewrite (proj2 (has_column_In _ _)) in Hget'; [discriminate|].
    now apply in_map. }
  cbv zeta. rewrite (filtered_fixed out name' Hget' Hi).
  2:{ intros r Hr. apply (Hnotna r _ Hr). rewrite <- (Hshape r Hr) at 2.
      rewrite Hc. now apply in_map. }
  rewrite _validate_data_run. cbn [dataframe with_dataframe file_path logger].
  cbv zeta. rewrite (any_isna_false out Hnotna).
  now rewrite (astype_fixed out Hc Htyped).
Qed.

Lemma filter_none {A} (f : A -> bool) (l : list A) :
  (forall x, In x l -> f x = false) -> filter f l = [].
Proof.
  induction l as [|x t IH]; [reflexivity|]. cbn. intros H.
  rewrite (H x (or_introl eq_refl)). apply IH. intros; apply H; now right.
Qed.

(** X12.  A sheet in which no row has a [Name], in particular a sheet that
    has its header row only, is loaded without error as an empty table with
    the columns of the schema, whatever else its rows hold: missing values
    and values that cannot be converted in such rows are never looked at. *)
Theorem x12_sheet_without_named_rows_loads_empty
  (sheet_name : string) (header return_output : bool) (self : ExcelClient)
  (raw : DataFrame) :
  In "Name" FEATURES_keys ->
  read_excel (file_path self) sheet_name (Some 0) = inr raw ->
  (forall k, In k FEATURES_keys -> In (Str k) (columns raw)) ->
  (forall r, In r (values raw) -> row_value (columns raw) r "Name" = NaN) ->
  load_excel sheet_name header return_output self
  = (inr (if return_output
          then Some (mkDataFrame (map Str FEATURES_keys) [])
          else None),
     mkExcelClient (file_path self) (mkDataFrame (map Str FEATURES_keys) [])
       (logger self
        ++ [(INFO, "Reading in Excel file");
            (INFO, "Formatting and validating data");
            (DEBUG, "Dataset loaded, no apparent missing values.")])).
Proof.
  intros HName Hread Hcols Hnameless.
  rewrite (load_excel_read _ _ _ _ _ Hread).
  destruct (loc_columns raw FEATURES_keys) as [e|proj] eqn:Hproj.
  { rewrite (loc_columns_present _ _ Hcols) in Hproj. discriminate. }
  destruct (loc_columns_inr _ _ _ Hproj) as [_ Hp].
  destruct (getitem proj "Name") as [e|name] eqn:Hget.
  { exfalso. unfold getitem in Hget. rewrite Hp in Hget. cbn [columns] in Hget.
    rewrite (proj2 (has_column_In _ _)) in Hget; [discriminate|].
    now apply in_map. }
  cbv zeta.
  destruct (filtered_of_raw _ _ _ Hproj Hget) as (_ & Hfc & Hfv & Hfi).
  assert (filtered proj name = mkDataFrame (map Str FEATURES_keys) [])
    as ->.
  { assert (values (filtered proj name) = []) as Hnil.
    { rewrite Hfv.
      rewrite filter_none; [reflexivity|].
      intros r Hr. now rewrite (Hnameless r Hr). }
    apply DataFrame_ext; [exact Hfc| |exact Hnil].
    now rewrite Hfi, Hnil. }
  replace (any (isna_any_axis1 (mkDataFrame (map Str FEATURES_keys) [])))
    with false by reflexivity.
  rewrite (astype_fixed (mkDataFrame (map Str FEATURES_keys) []));
    [reflexivity|reflexivity|intros r []].
Qed.

End Client.

(** ** The properties on the example file system *)

(** C2.  The [header] flag changes nothing: [load_excel] with [header] false
    is [load_excel] with [header] true, because the call without a [header]
    argument takes the reader's default, row 0.  On the sheet [Full] the
    call with [header] false stores a frame whose labels are the first row
    and whose data start at the second row, where reading without a header
    row gives the labels 0 and 1 and keeps the first row as row 0. *)
Theorem c2_header_false_still_consumes_first_row :
  (forall fs FEATURES to_string sheet_name return_output self,
      load_excel fs FEATURES to_string sheet_name false return_output self
      = load_excel fs FEATURES to_string sheet_name true return_output self)
  /\ _to_df Example.fs "Full" false Example.client
     = (inr tt, mkExcelClient "data.xlsx" Example.Full [])
  /\ Example.Full
     = mkDataFrame [Str "Name"; Str "Qty"]
         [(0, [Str "A"; Int 5]); (1, [Str "B"; Str "7"])]
  /\ parse_grid [[Str "Name"; Str "Qty"];
                 [Str "A"; Int 5];
                 [Str "B"; Str "7"]] None
     = mkDataFrame [Int 0; Int 1]
         [(0, [Str "Name"; Str "Qty"]);
          (1, [Str "A"; Int 5]);
          (2, [Str "B"; Str "7"])].
Proof.
  split; [|repeat split].
  intros fs FEATURES to_string sheet_name return_output self.
  reflexivity.
Qed.

(** C1 as stated fails on the sheet [Mixed], which holds the non-numeric
    text [x] under [Qty] in one row and a missing [Qty] in another: the call
    ends in the missing-value error, not in a conversion error, and the table
    the check looked at, left in the instance, still holds the text. *)
Lemma c1_conversion_before_check_counterexample :
  read_excel Example.fs "data.xlsx" "Mixed" (Some 0) = inr Example.Mixed
  /\ In [Str "B"; Str "x"] (values Example.Mixed)
  /\ int_of_text "x" = None
  /\ load_excel Example.fs Example.FEATURES show_frame "Mixed" true true
       Example.client
     = (inl (ValidationError show_frame Example.Mixed_offending),
        with_dataframe Example.client Example.Mixed [reading; formatting])
  /\ ~ (exists e,
          fst (load_excel Example.fs Example.FEATURES show_frame "Mixed" true
                 true Example.client)
          = inl (CoercionError e)).
Proof.
  repeat split.
  - right. now left.
  - intros (e & He). discriminate He.
Qed.

Lemma c1_missing_check_precedes_conversion_witness :
  read_excel Example.fs (file_path Example.client) "Sheet1" (Some 0)
  = inr Example.Sheet1
  /\ loc_columns Example.Sheet1 (FEATURES_keys Example.FEATURES)
     = inr Example.Sheet1
  /\ getitem Example.Sheet1 "Name"
     = inr [(0, Str "A"); (1, NaN); (2, Str "B")]
  /\ exists e,
       astype Example.Sheet1_filtered Example.FEATURES = inl e
       /\ load_excel Example.fs Example.FEATURES show_frame "Sheet1" true true
            Example.client
          = (inl (CoercionError e),
             with_dataframe Example.client Example.Sheet1_filtered
               [reading; formatting; no_missing; (ERROR, conversion_msg e)]).
Proof.
  do 3 (split; [reflexivity|]).
  destruct (c1_missing_check_precedes_conversion
              Example.fs Example.FEATURES show_frame "Sheet1" true true
              Example.client Example.Sheet1 Example.Sheet1
              [(0, Str "A"); (1, NaN); (2, Str "B")]
              eq_refl eq_refl eq_refl) as [_ H].
  exists (Exn ValueError "invalid literal for int() with base 10: 'x'" None).
  split; [reflexivity|].
  exact (H eq_refl
           (Exn ValueError "invalid literal for int() with base 10: 'x'" None)
           eq_refl).
Defined.

Lemma c3_missing_file_raises_FileNotFoundError_witness :
  Example.fs (file_path (__init__ "absent.xlsx"))
  = Missing (Exn FileNotFoundError
               "[Errno 2] No such file or directory: 'absent.xlsx'" None)
  /\ exists e,
       fst (load_excel Example.fs Example.FEATURES show_frame "Sheet1" true
              false (__init__ "absent.xlsx"))
       = inl e
       /\ etype e = FileNotFoundError
       /\ emsg e = "File 'absent.xlsx' not found."
       /\ cause e
          = Some (Exn FileNotFoundError
                    "[Errno 2] No such file or directory: 'absent.xlsx'"
                    None).
Proof.
  split; [reflexivity|].
  exact (proj1 (c3_missing_file_raises_FileNotFoundError
                  Example.fs Example.FEATURES show_frame "Sheet1" true false
                  (__init__ "absent.xlsx")
                  (Exn FileNotFoundError
                     "[Errno 2] No such file or directory: 'absent.xlsx'"
                     None)
                  eq_refl) eq_refl).
Defined.

(** C3 as stated fails on a path that leads to no file because one of its
    components is a file: opening it raises a [NotADirectoryError], and the
    call ends in the [ValueError] of the read step, not in a
    [FileNotFoundError]. *)
Lemma c3_path_through_a_file_counterexample :
  Example.fs "data.xlsx/book.xlsx"
  = Missing (Exn (OtherException "NotADirectoryError")
               "[Errno 20] Not a directory: 'data.xlsx/book.xlsx'" None)
  /\ fst (load_excel Example.fs Example.FEATURES show_frame "Sheet1" true
            false (__init__ "data.xlsx/book.xlsx"))
     = inl (Exn ValueError
              "Exception raised during file readout: [Errno 20] Not a directory: 'data.xlsx/book.xlsx'"
              (Some (Exn (OtherException "NotADirectoryError")
                       "[Errno 20] Not a directory: 'data.xlsx/book.xlsx'"
                       None)))
  /\ ~ (exists e,
          fst (load_excel Example.fs Example.FEATURES show_frame "Sheet1" true
                 false (__init__ "data.xlsx/book.xlsx"))
          = inl e
          /\ etype e = FileNotFoundError).
Proof.
  split; [reflexivity|]. split; [reflexivity|].
  intros (e & He & Ht). cbn in He. injection He as <-. discriminate Ht.
Qed.

Lemma c4_read_failure_raises_ParseError_witness :
  get_sheet "Summary" Example.sheets = None
  /\ fst (load_excel Example.fs Example.FEATURES show_frame "Summary" true
            false Example.client)
     = inl (Exn ValueError
              "Exception raised during file readout: Worksheet named 'Summary' not found"
              (Some (Exn ValueError "Worksheet named 'Summary' not found"
                         None)))
  /\ dataframe (snd (load_excel Example.fs Example.FEATURES show_frame
                       "Summary" true false Example.client))
     = empty_DataFrame.
Proof.
  split; [reflexivity|].
  apply (c4_read_failure_raises_ParseError
           Example.fs Example.FEATURES show_frame "Summary" true false
           Example.client
           (Exn ValueError "Worksheet named 'Summary' not found" None)).
  left. exists Example.sheets. repeat split.
Defined.

(** C5 as stated fails on the sheet [Prices], which has no [Qty] column: the
    call ends in the [KeyError] of the selection, which is none of the
    exceptions the class constructs. *)
Lemma c5_explicit_schema_error_counterexample :
  read_excel Example.fs "data.xlsx" "Prices" (Some 0) = inr Example.Prices
  /\ ~ In (Str "Qty") (columns Example.Prices)
  /\ fst (load_excel Example.fs Example.FEATURES show_frame "Prices" true
            false Example.client)
     = inl (Exn KeyError "['Qty'] not in index" None)
  /\ ~ (exists e,
          fst (load_excel Example.fs Example.FEATURES show_frame "Prices" true
                 false Example.client)
          = inl e
          /\ raised_by_class show_frame e).
Proof.
  repeat split.
  - cbn. intros [H|[H|[]]]; discriminate.
  - intros (e & He & Hr). cbn in He. injection He as <-.
    destruct Hr as [(p & c & H)|[(c & H)|[(o & H)|(c & H)]]]; discriminate.
Qed.

Lemma c5_absent_column_raises_KeyError_witness :
  read_excel Example.fs (file_path Example.client) "Prices" (Some 0)
  = inr Example.Prices
  /\ In "Qty" (FEATURES_keys Example.FEATURES)
  /\ ~ In (Str "Qty") (columns Example.Prices)
  /\ exists msg,
       fst (load_excel Example.fs Example.FEATURES show_frame "Prices" true
              false Example.client)
       = inl (Exn KeyError msg None)
       /\ ~ raised_by_class show_frame (Exn KeyError msg None)
       /\ dataframe (snd (load_excel Example.fs Example.FEATURES show_frame
                            "Prices" true false Example.client))
          = Example.Prices.
Proof.
  assert (~ In (Str "Qty") (columns Example.Prices)) as Hn
    by (cbn; intros [H|[H|[]]]; discriminate).
  split; [reflexivity|]. split; [right; now left|]. split; [exact Hn|].
  exact (c5_absent_column_raises_KeyError
           Example.fs Example.FEATURES show_frame "Prices" true false
           Example.client Example.Prices "Qty" eq_refl
           (or_intror (or_introl eq_refl)) Hn).
Defined.

Lemma c6_filter_drops_rows_without_name_witness :
  In "Name" (FEATURES_keys Example.FEATURES)
  /\ loc_columns Example.Good (FEATURES_keys Example.FEATURES)
     = inr Example.Good_projected
  /\ exists out,
       _format_df Example.FEATURES show_frame false
         (mkExcelClient "data.xlsx" Example.Good [])
       = (inr tt, mkExcelClient "data.xlsx" out [])
       /\ columns out = [Str "Name"; Str "Qty"]
       /\ values out = [[Str "A"; Int 5]; [Str "B"; Str "7"]]
       /\ index out = seq 0 (length (values out))
       /\ (forall grid header r,
             In r (values (parse_grid grid header)) -> ~ In (Str "") r).
Proof.
  split; [now left|]. split; [reflexivity|].
  exact (c6_filter_drops_rows_without_name
           Example.fs Example.FEATURES show_frame
           (mkExcelClient "data.xlsx" Example.Good []) Example.Good_projected
           (or_introl eq_refl) eq_refl).
Defined.



Lemma c9_table_returned_or_retained_witness :
  load_excel Example.fs Example.FEATURES show_frame "Full" true true
    Example.client
  = (inr (Some Example.Full_converted),
     with_dataframe Example.client Example.Full_converted
       [reading; formatting; no_missing])
  /\ load_excel Example.fs Example.FEATURES show_frame "Full" true false
       Example.client
     = (inr None,
        with_dataframe Example.client Example.Full_converted
          [reading; formatting; no_missing]).
Proof.
  split; [reflexivity|].
  exact (proj2 (c9_table_returned_or_retained
                  Example.fs Example.FEATURES show_frame "Full" true true
                  Example.client
                  (with_dataframe Example.client Example.Full_converted
                     [reading; formatting; no_missing])
                  (Some Example.Full_converted) eq_refl)).
Defined.

Lemma c10_failed_load_keeps_intermediate_table_witness :
  read_excel Example.fs (file_path Example.client) "Sheet1" (Some 0)
  = inr Example.Sheet1
  /\ fst (load_excel Example.fs Example.FEATURES show_frame "Sheet1" true true
            Example.client)
     = inl (CoercionError
              (Exn ValueError "invalid literal for int() with base 10: 'x'"
                   None))
  /\ dataframe
       (snd (load_excel Example.fs Example.FEATURES show_frame "Sheet1" true
               true Example.client))
     = Example.Sheet1_filtered
  /\ load_excel Example.fs Example.FEATURES show_frame "Full" true true
       (snd (load_excel Example.fs Example.FEATURES show_frame "Sheet1" true
               true Example.client))
     = load_excel Example.fs Example.FEATURES show_frame "Full" true true
         (mkExcelClient "data.xlsx" empty_DataFrame
            (logger
               (snd (load_excel Example.fs Example.FEATURES show_frame
                       "Sheet1" true true Example.client)))).
Proof.
  split; [reflexivity|]. split; [reflexivity|].
  destruct (c10_failed_load_keeps_intermediate_table
              Example.fs Example.FEATURES show_frame "Sheet1" true true
              Example.client
              (snd (load_excel Example.fs Example.FEATURES show_frame "Sheet1"
                      true true Example.client))
              Example.Sheet1
              (CoercionError
                 (Exn ValueError "invalid literal for int() with base 10: 'x'"
                      None))
              eq_refl eq_refl) as (_ & _ & H3 & H4 & _).
  split.
  - exact (proj1 (H3 Example.Sheet1 [(0, Str "A"); (1, NaN); (2, Str "B")]
                    eq_refl eq_refl)).
  - exact (H4 "Full" true true Example.Full eq_refl).
Defined.

(** C10 as stated fails on a later call whose read step fails: after the
    call on [Sheet1] failed in the conversion, a call for a sheet the
    workbook does not have leaves the table of the failed call in the
    instance, where the same call on a fresh instance leaves the empty
    frame. *)
Lemma c10_later_load_keeps_leftover_counterexample :
  fst (load_excel Example.fs Example.FEATURES show_frame "Sheet1" true true
         Example.client)
  = inl (CoercionError
           (Exn ValueError "invalid literal for int() with base 10: 'x'"
                None))
  /\ dataframe
       (snd (load_excel Example.fs Example.FEATURES show_frame "Summary" true
               true
               (snd (load_excel Example.fs Example.FEATURES show_frame
                       "Sheet1" true true Example.client))))
     = Example.Sheet1_filtered
  /\ dataframe
       (snd (load_excel Example.fs Example.FEATURES show_frame "Summary" true
               true Example.client))
     = empty_DataFrame
  /\ Example.Sheet1_filtered <> empty_DataFrame.
Proof.
  repeat split. discriminate.
Qed.

(** Two more runs on the example file system: a file that is no workbook,
    and a sheet whose second row lacks its [Qty]. *)
Example load_broken_file :
  fst (load_excel Example.fs Example.FEATURES show_frame "Sheet1" true true
         (__init__ "broken.xlsx"))
  = inl (ParseError (Exn (OtherException "BadZipFile")
                         "File is not a zip file" None)).
Proof. reflexivity. Qed.

Example load_sheet_with_gap :
  load_excel Example.fs Example.FEATURES show_frame "Gap" true true
    Example.client
  = (inl (ValidationError show_frame
            (mkDataFrame [Str "Name"; Str "Qty"] [(1, [Str "B"; NaN])])),
     with_dataframe Example.client
       (Example.frame ["Name"; "Qty"] [[Str "A"; Int 5]; [Str "B"; NaN]])
       [reading; formatting]).
Proof. reflexivity. Qed.

(** ** The further properties on the example file system *)

Lemma x4_load_excel_exception_classes_witness :
  fst (load_excel Example.fs Example.FEATURES show_frame "Prices" true true
         Example.client)
  = inl (Exn KeyError "['Qty'] not in index" None)
  /\ (KeyError = FileNotFoundError \/ KeyError = ValueError
      \/ KeyError = KeyError)
  /\ (KeyError = FileNotFoundError <->
      exists c, read_excel Example.fs "data.xlsx" "Prices" (Some 0) = inl c
                /\ is_FileNotFoundError c = true)
  /\ (KeyError = KeyError ->
      exists raw,
        read_excel Example.fs "data.xlsx" "Prices" (Some 0) = inr raw
        /\ (loc_columns raw (FEATURES_keys Example.FEATURES)
            = inl (Exn KeyError "['Qty'] not in index" None)
            \/ exists proj,
                 loc_columns raw (FEATURES_keys Example.FEATURES) = inr proj
                 /\ getitem proj "Name"
                    = inl (Exn KeyError "['Qty'] not in index" None))).
Proof.
  split; [reflexivity|].
  exact (x4_load_excel_exception_classes
           Example.fs Example.FEATURES show_frame "Prices" true true
           Example.client (Exn KeyError "['Qty'] not in index" None)
           eq_refl).
Defined.

Lemma x5_loaded_table_invariant_witness :
  load_excel Example.fs Example.FEATURES show_frame "Full" true true
    Example.client
  = (inr (Some Example.Full_converted), MoreExamples.loaded_Full)
  /\ columns Example.Full_converted = [Str "Name"; Str "Qty"]
  /\ index Example.Full_converted = [0; 1]
  /\ forall r,
       In r (values Example.Full_converted) ->
       length r = 2
       /\ (forall x, In x r -> x <> NaN)
       /\ Forall2
            (fun k y =>
               exists d, dtype_of Example.FEATURES (Str k) = Some d
                         /\ has_dtype d y = true)
            ["Name"; "Qty"] r.
Proof.
  split; [reflexivity|].
  exact (x5_loaded_table_invariant
           Example.fs Example.FEATURES show_frame "Full" true true
           Example.client MoreExamples.loaded_Full
           (Some Example.Full_converted) eq_refl).
Defined.


Lemma x7_rows_without_name_are_ignored_witness :
  NoDup (columns Example.Good)
  /\ In "Name" (FEATURES_keys Example.FEATURES)
  /\ (forall k, In k (FEATURES_keys Example.FEATURES) ->
                In (Str k) (columns Example.Good))
  /\ _format_df Example.FEATURES show_frame true
       (mkExcelClient "data.xlsx"
          (mkDataFrame (columns Example.Good)
             [(0, [Str "A"; NaN; Int 5]); (2, [Str "B"; Bool true; Str "7"])])
          [])
     = _format_df Example.FEATURES show_frame true
         (mkExcelClient "data.xlsx"
            (mkDataFrame (columns Example.Good) (rows Example.Good)) []).
Proof.
  assert (forall k, In k (FEATURES_keys Example.FEATURES) ->
                    In (Str k) (columns Example.Good)) as Hcols
    by (intros k [<-|[<-|[]]]; cbn; auto).
  assert (NoDup (columns Example.Good)) as Hnd
    by (repeat constructor; cbn; intuition discriminate).
  split; [exact Hnd|]. split; [now left|]. split; [exact Hcols|].
  exact (x7_rows_without_name_are_ignored
           Example.FEATURES show_frame true "data.xlsx"
           (columns Example.Good) (rows Example.Good) []
           Hnd (or_introl eq_refl) Hcols).
Defined.

Lemma x9_format_df_depends_on_schema_columns_only_witness :
  NoDup (columns Example.Good)
  /\ NoDup (columns MoreExamples.Good_swapped)
  /\ (forall k, In k (FEATURES_keys Example.FEATURES) ->
                In (Str k) (columns Example.Good))
  /\ (forall k, In k (FEATURES_keys Example.FEATURES) ->
                In (Str k) (columns MoreExamples.Good_swapped))
  /\ _format_df Example.FEATURES show_frame true
       (mkExcelClient "data.xlsx" Example.Good [])
     = _format_df Example.FEATURES show_frame true
         (mkExcelClient "data.xlsx" MoreExamples.Good_swapped []).
Proof.
  assert (forall k, In k (FEATURES_keys Example.FEATURES) ->
                    In (Str k) (columns Example.Good)) as H1
    by (intros k [<-|[<-|[]]]; cbn; auto).
  assert (forall k, In k (FEATURES_keys Example.FEATURES) ->
                    In (Str k) (columns MoreExamples.Good_swapped)) as H2
    by (intros k [<-|[<-|[]]]; cbn; auto).
  assert (NoDup (columns Example.Good)) as Hn1
    by (repeat constructor; cbn; intuition discriminate).
  assert (NoDup (columns MoreExamples.Good_swapped)) as Hn2
    by (repeat constructor; cbn; intuition discriminate).
  split; [exact Hn1|]. split; [exact Hn2|].
  split; [exact H1|]. split; [exact H2|].
  apply (x9_format_df_depends_on_schema_columns_only
           Example.FEATURES show_frame true "data.xlsx"
           Example.Good MoreExamples.Good_swapped [] Hn1 Hn2 H1 H2).
  repeat constructor; intros k [<-|[<-|[]]]; reflexivity.
Defined.

Lemma x10_validate_data_on_table_without_schema_column_witness :
  In "Name" (FEATURES_keys Example.FEATURES)
  /\ ~ In (Str "Name") (columns (dataframe (__init__ "data.xlsx")))
  /\ any (isna_any_axis1 (dataframe (__init__ "data.xlsx"))) = false
  /\ exists c,
       etype c = KeyError
       /\ _validate_data Example.FEATURES show_frame (__init__ "data.xlsx")
          = (inl (Exn ValueError
                    ("Exception raised during datatype conversion: " ++ str c)
                    (Some c)),
             mkExcelClient "data.xlsx" empty_DataFrame
               [(DEBUG, "Dataset loaded, no apparent missing values.");
                (ERROR,
                 "Exception raised during datatype conversion: " ++ str c)]).
Proof.
  split; [now left|]. split; [intros []|]. split; [reflexivity|].
  exact (x10_validate_data_on_table_without_schema_column
           Example.FEATURES show_frame (__init__ "data.xlsx") "Name"
           (or_introl eq_refl) (fun H : False => H) eq_refl).
Defined.

Lemma x11_format_df_on_loaded_table_witness :
  load_excel Example.fs Example.FEATURES show_frame "Full" true true
    Example.client
  = (inr (Some Example.Full_converted), MoreExamples.loaded_Full)
  /\ _format_df Example.FEATURES show_frame true MoreExamples.loaded_Full
     = (inr tt,
        mkExcelClient "data.xlsx" Example.Full_converted
          [(INFO, "Reading in Excel file");
           (INFO, "Formatting and validating data");
           (DEBUG, "Dataset loaded, no apparent missing values.");
           (DEBUG, "Dataset loaded, no apparent missing values.")]).
Proof.
  split; [reflexivity|].
  exact (x11_format_df_on_loaded_table
           Example.fs Example.FEATURES show_frame "Full" true true
           Example.client MoreExamples.loaded_Full
           (Some Example.Full_converted) eq_refl).
Defined.

Lemma x12_sheet_without_named_rows_loads_empty_witness :
  In "Name" (FEATURES_keys Example.FEATURES)
  /\ read_excel MoreExamples.blank_fs "data.xlsx" "Blank" (Some 0)
     = inr MoreExamples.Blank
  /\ (forall r, In r (values MoreExamples.Blank) ->
                row_value (columns MoreExamples.Blank) r "Name" = NaN)
  /\ load_excel MoreExamples.blank_fs Example.FEATURES show_frame "Blank"
       true true Example.client
     = (inr (Some (mkDataFrame [Str "Name"; Str "Qty"] [])),
        mkExcelClient "data.xlsx" (mkDataFrame [Str "Name"; Str "Qty"] [])
          [(INFO, "Reading in Excel file");
           (INFO, "Formatting and validating data");
           (DEBUG, "Dataset loaded, no apparent missing values.")]).
Proof.
  assert (forall r, In r (values MoreExamples.Blank) ->
                    row_value (columns MoreExamples.Blank) r "Name" = NaN)
    as Hblank by (intros r [<-|[<-|[]]]; reflexivity).
  split; [now left|]. split; [reflexivity|]. split; [exact Hblank|].
  apply (x12_sheet_without_named_rows_loads_empty
           MoreExamples.blank_fs Example.FEATURES show_frame "Blank" true true
           Example.client MoreExamples.Blank (or_introl eq_refl) eq_refl);
    [|exact Hblank].
  intros k [<-|[<-|[]]]; cbn; auto.
Defined.
